(** * Warehouse task allocation core: ledgers, fleet, planner agents, coordinator

    A shallow embedding of the Python warehouse simulation
    ([simulation/inventory.py], [simulation/agv.py], [simulation/order.py],
    [simulation/warehouse.py], [agents/*.py]) and the properties of its
    specification that concern the allocation and execution core.

    Modelling conventions.
    - Python [int] is [Z].  A Python [float] that is only stored, compared
      with integers or moved by fixed amounts (battery level, AGV capacity)
      is the rational it denotes ([Q]); Python compares [int] with [float]
      exactly, so [current_weight + quantity > max_capacity] is a comparison
      in [Q].  Where a result depends on rounding (the restock priority) the
      arithmetic is IEEE-754 binary64, computed with [SpecFloat].
    - A [dict] used as a keyed store is a [gmap]; where the source iterates
      over [.values()] the insertion order of the keys is kept beside it.
    - Objects held in a store are mutated in place by the source; here the
      store is rebuilt with the new object under the same key.
    - A raised exception is the [Raised] outcome; the state reached when it
      was raised is kept, as in Python.
    - Wall-clock fields ([last_updated], [timestamp]), the [logging] calls and
      the JSON snapshot written after a successful mutation are not
      represented: nothing modelled here reads them back. *)

From Stdlib Require Import ZArith QArith Qround Lqa Floats.SpecFloat.
From stdpp Require Import gmap strings list fin_maps sorting.

Open Scope Z_scope.

(** ** Python values and outcomes *)

Inductive exn :=
| AttributeError
| ZeroDivisionError
| ValueError
| OverflowError.

Inductive outcome (A : Type) :=
| Returned (a : A)
| Raised (e : exn).
Arguments Returned {A} a.
Arguments Raised {A} e.

(** [if s:] on an optional string: present and non-empty. *)
Definition truthy_str (o : option string) : bool :=
  match o with
  | Some s => negb (String.eqb s "")
  | None => false
  end.

(** [if n:] on an optional integer: present and non-zero. *)
Definition truthy_int (o : option Z) : bool :=
  match o with
  | Some n => negb (n =? 0)
  | None => false
  end.

(** [max(0, x)] on a float. *)
Definition max0 (x : Q) : Q := if Qlt_le_dec 0 x then x else 0%Q.

(** [min(100.0, x)] on a float. *)
Definition min100 (x : Q) : Q := if Qlt_le_dec x 100 then x else 100%Q.

(** [n > c] for an integer [n] and a float [c]. *)
Definition int_gt_float (n : Z) (c : Q) : bool :=
  if Qlt_le_dec c (inject_Z n) then true else false.

(** ** simulation/agv.py *)

Module AGVStatus.
Inductive t := IDLE | MOVING | LOADING | UNLOADING | CHARGING | MAINTENANCE.

#[global] Instance agv_status_eq_dec : EqDecision t.
Proof. solve_decision. Defined.
End AGVStatus.

(** The values a result or payload dictionary can hold.  An f-string is kept
    as its sequence of literal pieces and interpolated values. *)
Inductive fpart :=
| FLit (s : string)
| FStr (s : string)
| FInt (n : Z)
| FNum (q : Q)
| FStatus (s : AGVStatus.t).

#[local] Unset Elimination Schemes.
Inductive Value :=
| VNone
| VBool (b : bool)
| VInt (n : Z)
| VNum (q : Q)
| VStr (s : string)
| VFmt (parts : list fpart)
| VStatus (s : AGVStatus.t)
| VList (l : list Value)
| VDict (d : list (string * Value)).
#[local] Set Elimination Schemes.

(** A dictionary literal, in the order its keys are written. *)
Abbreviation pydict := (list (string * Value)).

Fixpoint dict_get (k : string) (d : pydict) : option Value :=
  match d with
  | [] => None
  | (k', v) :: d' => if String.eqb k k' then Some v else dict_get k d'
  end.

(** [sum(d.values())] for a dictionary of integers. *)
Definition sum_values (d : gmap string Z) : Z :=
  map_fold (fun _ v acc => acc + v) 0 d.

(** [d[k] = v] on the insertion order of a dictionary's keys. *)
Definition keys_set (k : string) (present : bool) (keys : list string)
  : list string :=
  if present then keys else keys ++ [k].

Module AGV.
Record t := mk {
  agv_id : string;
  name : string;
  location : string;
  status : AGVStatus.t;
  battery_level : Q;
  max_capacity : Q;
  current_load : gmap string Z
}.

Definition to_dict (self : t) : pydict :=
  [ ("agv_id", VStr (agv_id self));
    ("name", VStr (name self));
    ("location", VStr (location self));
    ("status", VStatus (status self));
    ("battery_level", VNum (battery_level self));
    ("max_capacity", VNum (max_capacity self));
    ("current_load",
      VDict ((fun kv => (fst kv, VInt (snd kv))) <$> map_to_list (current_load self))) ].

Definition is_available (self : t) : bool :=
  bool_decide (status self = AGVStatus.IDLE)
  && (if Qlt_le_dec 20 (battery_level self) then true else false)
  && bool_decide (current_load self = ∅).

Definition move_to (self : t) (new_location : string) : t :=
  mk (agv_id self) (name self) new_location AGVStatus.IDLE
     (max0 (battery_level self - 5)) (max_capacity self) (current_load self).

Definition load_item (self : t) (product_id : string) (quantity : Z)
  : t * bool :=
  if decide (status self ≠ AGVStatus.IDLE) then (self, false)
  else
    let current_weight := sum_values (current_load self) in
    if int_gt_float (current_weight + quantity) (max_capacity self)
    then (self, false)
    else
      let load' :=
        match current_load self !! product_id with
        | Some held => <[product_id := held + quantity]> (current_load self)
        | None => <[product_id := quantity]> (current_load self)
        end in
      (mk (agv_id self) (name self) (location self) AGVStatus.IDLE
          (max0 (battery_level self - 2)) (max_capacity self) load',
       true).

Definition unload_item (self : t) (product_id : string) (quantity : option Z)
  : t * (string * Z) :=
  if decide (status self ≠ AGVStatus.IDLE) then (self, (product_id, 0))
  else
    match current_load self !! product_id with
    | None => (self, (product_id, 0))
    | Some held =>
        let whole := (held, delete product_id (current_load self)) in
        let '(unloaded_quantity, load') :=
          match quantity with
          | None => whole
          | Some q =>
              if decide (q >= held) then whole
              else
                let rest := <[product_id := held - q]> (current_load self) in
                (q, if decide (held - q = 0) then delete product_id rest
                    else rest)
          end in
        (mk (agv_id self) (name self) (location self) AGVStatus.IDLE
            (max0 (battery_level self - 2)) (max_capacity self) load',
         (product_id, unloaded_quantity))
    end.

Definition charge (self : t) (amount : Q) : t :=
  mk (agv_id self) (name self) (location self) AGVStatus.IDLE
     (min100 (battery_level self + amount)) (max_capacity self)
     (current_load self).

Definition set_status (self : t) (s : AGVStatus.t) : t :=
  mk (agv_id self) (name self) (location self) s
     (battery_level self) (max_capacity self) (current_load self).
End AGV.

Module AGVManager.
(** [self.agvs], with the insertion order of its keys. *)
Record t := mk {
  agvs : gmap string AGV.t;
  agv_keys : list string
}.

Definition put (self : t) (key : string) (agv : AGV.t) : t :=
  mk (<[key := agv]> (agvs self))
     (keys_set key (bool_decide (is_Some (agvs self !! key))) (agv_keys self)).

Definition add_agv (self : t) (agv : AGV.t) : t :=
  put self (AGV.agv_id agv) agv.

Definition get_agv (self : t) (agv_id : string) : option AGV.t :=
  agvs self !! agv_id.

Definition get_all_agvs (self : t) : list AGV.t :=
  omap (fun k => agvs self !! k) (agv_keys self).

Definition get_available_agvs (self : t) : list AGV.t :=
  filter (fun agv => AGV.is_available agv = true) (get_all_agvs self).

Definition update_agv_status (self : t) (agv_id : string) (s : AGVStatus.t)
  : t * bool :=
  match get_agv self agv_id with
  | None => (self, false)
  | Some agv => (put self agv_id (AGV.set_status agv s), true)
  end.

Definition move_agv (self : t) (agv_id location : string) : t * bool :=
  match get_agv self agv_id with
  | None => (self, false)
  | Some agv => (put self agv_id (AGV.move_to agv location), true)
  end.

Definition load_agv (self : t) (agv_id product_id : string) (quantity : Z)
  : t * bool :=
  match get_agv self agv_id with
  | None => (self, false)
  | Some agv =>
      let '(agv', result) := AGV.load_item agv product_id quantity in
      (put self agv_id agv', result)
  end.

Definition unload_agv (self : t) (agv_id product_id : string)
    (quantity : option Z) : t * (string * Z) :=
  match get_agv self agv_id with
  | None => (self, (product_id, 0))
  | Some agv =>
      let '(agv', result) := AGV.unload_item agv product_id quantity in
      (put self agv_id agv', result)
  end.

Definition charge_agv (self : t) (agv_id : string) (amount : Q) : t * bool :=
  match get_agv self agv_id with
  | None => (self, false)
  | Some agv => (put self agv_id (AGV.charge agv amount), true)
  end.
End AGVManager.

(** ** simulation/inventory.py *)

Module InventoryItem.
Record t := mk {
  product_id : string;
  name : string;
  quantity : Z;
  location : string;
  min_threshold : Z;
  max_capacity : Z
}.

Definition to_dict (self : t) : pydict :=
  [ ("product_id", VStr (product_id self));
    ("name", VStr (name self));
    ("quantity", VInt (quantity self));
    ("location", VStr (location self));
    ("min_threshold", VInt (min_threshold self));
    ("max_capacity", VInt (max_capacity self)) ].

Definition set_quantity (self : t) (q : Z) : t :=
  mk (product_id self) (name self) q (location self)
     (min_threshold self) (max_capacity self).

Definition needs_restock (self : t) : bool :=
  bool_decide (quantity self <= min_threshold self).

Definition can_add (self : t) (amount : Z) : bool :=
  bool_decide (quantity self + amount <= max_capacity self).

Definition add (self : t) (amount : Z) : t * bool :=
  if negb (can_add self amount) then (self, false)
  else (set_quantity self (quantity self + amount), true).

Definition remove (self : t) (amount : Z) : t * bool :=
  if decide (amount > quantity self) then (self, false)
  else (set_quantity self (quantity self - amount), true).
End InventoryItem.

(** What a caller hands to [InventoryManager.add_item]: an [InventoryItem]
    object, or a plain dictionary. *)
Inductive item_arg :=
| ItemObject (item : InventoryItem.t)
| DictObject (d : pydict).

Module InventoryManager.
(** [self.items], with the insertion order of its keys. *)
Record t := mk {
  items : gmap string InventoryItem.t;
  item_keys : list string
}.

Definition put (self : t) (key : string) (item : InventoryItem.t) : t :=
  mk (<[key := item]> (items self))
     (keys_set key (bool_decide (is_Some (items self !! key))) (item_keys self)).

(** [self.items[item.product_id] = item]: the attribute read fails on a
    dictionary. *)
Definition add_item (self : t) (item : item_arg) : t * outcome unit :=
  match item with
  | ItemObject it => (put self (InventoryItem.product_id it) it, Returned tt)
  | DictObject _ => (self, Raised AttributeError)
  end.

Definition get_item (self : t) (product_id : string)
  : option InventoryItem.t :=
  items self !! product_id.

Definition get_all_items (self : t) : list InventoryItem.t :=
  omap (fun k => items self !! k) (item_keys self).

Definition update_quantity (self : t) (product_id : string)
    (new_quantity : Z) : t * bool :=
  match get_item self product_id with
  | None => (self, false)
  | Some item =>
      if decide (new_quantity < 0) then (self, false)
      else if decide (new_quantity > InventoryItem.max_capacity item)
      then (self, false)
      else (put self product_id (InventoryItem.set_quantity item new_quantity),
            true)
  end.

Definition add_quantity (self : t) (product_id : string) (amount : Z)
  : t * bool :=
  match get_item self product_id with
  | None => (self, false)
  | Some item =>
      let '(item', result) := InventoryItem.add item amount in
      (put self product_id item', result)
  end.

Definition remove_quantity (self : t) (product_id : string) (amount : Z)
  : t * bool :=
  match get_item self product_id with
  | None => (self, false)
  | Some item =>
      let '(item', result) := InventoryItem.remove item amount in
      (put self product_id item', result)
  end.

Definition get_items_below_threshold (self : t) : list InventoryItem.t :=
  filter (fun item => InventoryItem.needs_restock item = true)
         (get_all_items self).
End InventoryManager.

(** ** simulation/order.py *)

Module OrderStatus.
Inductive t :=
| PENDING | PROCESSING | PICKING | PACKING | SHIPPING | COMPLETED | CANCELLED.

#[global] Instance order_status_eq_dec : EqDecision t.
Proof. solve_decision. Defined.

(** [OrderStatus(value)]; [None] stands for the [ValueError] it raises. *)
Definition of_string (s : string) : option t :=
  if String.eqb s "pending" then Some PENDING
  else if String.eqb s "processing" then Some PROCESSING
  else if String.eqb s "picking" then Some PICKING
  else if String.eqb s "packing" then Some PACKING
  else if String.eqb s "shipping" then Some SHIPPING
  else if String.eqb s "completed" then Some COMPLETED
  else if String.eqb s "cancelled" then Some CANCELLED
  else None.
End OrderStatus.

Module Order.
Record t := mk {
  order_id : string;
  customer_id : string;
  items : list (string * Z);
  status : OrderStatus.t;
  priority : Z
}.

Definition update_status (self : t) (s : OrderStatus.t) : t :=
  mk (order_id self) (customer_id self) (items self) s (priority self).
End Order.

Module OrderManager.
Record t := mk {
  orders : gmap string Order.t;
  order_keys : list string
}.

Definition get_order (self : t) (order_id : string) : option Order.t :=
  orders self !! order_id.

Definition update_order_status (self : t) (order_id : string)
    (s : OrderStatus.t) : t * bool :=
  match get_order self order_id with
  | None => (self, false)
  | Some order =>
      (mk (<[order_id := Order.update_status order s]> (orders self))
          (order_keys self), true)
  end.
End OrderManager.

(** ** Action payloads

    An action is a dictionary [{type, agent, action, ...params}]; a key that
    is present carries a value of its documented type. *)

Module ProductData.
Record t := mk {
  product_id : option string;
  name : option string;
  quantity : option Z;
  location : option string;
  min_threshold : option Z;
  max_capacity : option Z
}.
End ProductData.

Module Action.
Record t := mk {
  type : option string;
  agent : option string;
  action : option string;
  product_id : option string;
  agv_id : option string;
  quantity : option Z;
  destination : option string;
  location : option string;
  amount : option Q;
  restock_amount : option Z;
  order_id : option string;
  status : option string;
  product_data : option ProductData.t
}.
End Action.

(** [{"success": False, "message": msg}] *)
Definition failure (msg : Value) : pydict :=
  [ ("success", VBool false); ("message", msg) ].

(** [result.get("success", False)], as a truth value. *)
Definition succeeded (result : pydict) : bool :=
  match dict_get "success" result with
  | Some (VBool b) => b
  | _ => false
  end.

(** ** simulation/warehouse.py *)

Module Warehouse.
Record Stats := mk_stats {
  orders_processed : Z;
  items_picked : Z;
  items_restocked : Z;
  agv_movements : Z
}.

Record t := mk {
  inventory_manager : InventoryManager.t;
  agv_manager : AGVManager.t;
  order_manager : OrderManager.t;
  stats : Stats
}.

(** The keys of [self.locations]. *)
Definition locations : list string :=
  [ "receiving"; "shipping"; "storage_a"; "storage_b"; "storage_c";
    "picking_station"; "packing_station"; "charging_station" ].

Definition set_inventory (self : t) (im : InventoryManager.t) : t :=
  mk im (agv_manager self) (order_manager self) (stats self).
Definition set_agvs (self : t) (am : AGVManager.t) : t :=
  mk (inventory_manager self) am (order_manager self) (stats self).
Definition set_orders (self : t) (om : OrderManager.t) : t :=
  mk (inventory_manager self) (agv_manager self) om (stats self).
Definition set_stats (self : t) (s : Stats) : t :=
  mk (inventory_manager self) (agv_manager self) (order_manager self) s.

Definition unknown_action : pydict :=
  failure (VStr "Unknown action type").

Definition not_colocated (agv_id product_id : string) : pydict :=
  failure (VFmt [FLit "AGV "; FStr agv_id;
                 FLit " is not at the same location as product ";
                 FStr product_id]).

Definition process_move_agv (self : t) (action : Action.t) : t * pydict :=
  match Action.agv_id action, Action.location action with
  | Some agv_id, Some location =>
      if truthy_str (Some agv_id) && truthy_str (Some location) then
        let '(am, success) :=
          AGVManager.move_agv (agv_manager self) agv_id location in
        if success then
          let s := stats self in
          (set_stats (set_agvs self am)
             (mk_stats (orders_processed s) (items_picked s)
                       (items_restocked s) (agv_movements s + 1)),
           [ ("success", VBool true);
             ("message", VFmt [FLit "AGV "; FStr agv_id; FLit " moved to ";
                               FStr location]) ])
        else
          (set_agvs self am,
           failure (VFmt [FLit "Failed to move AGV "; FStr agv_id;
                          FLit " to "; FStr location]))
      else (self, unknown_action)
  | _, _ => (self, unknown_action)
  end.

Definition process_pick_item (self : t) (action : Action.t) : t * pydict :=
  let quantity := default 1 (Action.quantity action) in
  match Action.agv_id action, Action.product_id action with
  | Some agv_id, Some product_id =>
      if truthy_str (Some agv_id) && truthy_str (Some product_id) then
        match AGVManager.get_agv (agv_manager self) agv_id,
              InventoryManager.get_item (inventory_manager self) product_id with
        | None, _ =>
            (self, failure (VFmt [FLit "AGV "; FStr agv_id; FLit " not found"]))
        | Some _, None =>
            (self, failure (VFmt [FLit "Product "; FStr product_id;
                                  FLit " not found"]))
        | Some agv, Some item =>
            if negb (String.eqb (AGV.location agv) (InventoryItem.location item))
            then (self, not_colocated agv_id product_id)
            else
              let '(im1, removed) :=
                InventoryManager.remove_quantity (inventory_manager self)
                  product_id quantity in
              if removed then
                let '(am1, loaded) :=
                  AGVManager.load_agv (agv_manager self) agv_id product_id
                    quantity in
                if loaded then
                  let s := stats self in
                  (mk im1 am1 (order_manager self)
                      (mk_stats (orders_processed s) (items_picked s + quantity)
                                (items_restocked s) (agv_movements s)),
                   [ ("success", VBool true);
                     ("message", VFmt [FLit "Picked "; FInt quantity;
                                       FLit " units of "; FStr product_id;
                                       FLit " with AGV "; FStr agv_id]) ])
                else
                  let '(im2, _) :=
                    InventoryManager.add_quantity im1 product_id quantity in
                  (mk im2 am1 (order_manager self) (stats self),
                   failure (VFmt [FLit "Failed to load "; FInt quantity;
                                  FLit " units of "; FStr product_id;
                                  FLit " onto AGV "; FStr agv_id]))
              else
                (set_inventory self im1,
                 failure (VFmt [FLit "Not enough inventory of ";
                                FStr product_id; FLit " to pick ";
                                FInt quantity; FLit " units"]))
        end
      else (self, unknown_action)
  | _, _ => (self, unknown_action)
  end.

Definition process_restock_item (self : t) (action : Action.t) : t * pydict :=
  let quantity := default 1 (Action.quantity action) in
  match Action.agv_id action, Action.product_id action with
  | Some agv_id, Some product_id =>
      if truthy_str (Some agv_id) && truthy_str (Some product_id) then
        match AGVManager.get_agv (agv_manager self) agv_id,
              InventoryManager.get_item (inventory_manager self) product_id with
        | None, _ =>
            (self, failure (VFmt [FLit "AGV "; FStr agv_id; FLit " not found"]))
        | Some _, None =>
            (self, failure (VFmt [FLit "Product "; FStr product_id;
                                  FLit " not found"]))
        | Some agv, Some item =>
            if negb (String.eqb (AGV.location agv) (InventoryItem.location item))
            then (self, not_colocated agv_id product_id)
            else
              let '(am1, (product_id, unloaded)) :=
                AGVManager.unload_agv (agv_manager self) agv_id product_id
                  (Some quantity) in
              if decide (unloaded > 0) then
                let '(im1, added) :=
                  InventoryManager.add_quantity (inventory_manager self)
                    product_id unloaded in
                if added then
                  let s := stats self in
                  (mk im1 am1 (order_manager self)
                      (mk_stats (orders_processed s) (items_picked s)
                                (items_restocked s + unloaded)
                                (agv_movements s)),
                   [ ("success", VBool true);
                     ("message", VFmt [FLit "Restocked "; FInt unloaded;
                                       FLit " units of "; FStr product_id;
                                       FLit " from AGV "; FStr agv_id]) ])
                else
                  let '(am2, _) :=
                    AGVManager.load_agv am1 agv_id product_id unloaded in
                  (mk im1 am2 (order_manager self) (stats self),
                   failure (VFmt [FLit "Failed to restock "; FInt unloaded;
                                  FLit " units of "; FStr product_id;
                                  FLit " to inventory"]))
              else
                (set_agvs self am1,
                 failure (VFmt [FLit "No "; FStr product_id;
                                FLit " available on AGV "; FStr agv_id;
                                FLit " to restock"]))
        end
      else (self, unknown_action)
  | _, _ => (self, unknown_action)
  end.

Definition process_order (self : t) (action : Action.t) : t * pydict :=
  match Action.order_id action, Action.status action with
  | Some order_id, Some new_status =>
      if truthy_str (Some order_id) && truthy_str (Some new_status) then
        match OrderStatus.of_string new_status with
        | None =>
            (self, failure (VFmt [FLit "Invalid order status: ";
                                  FStr new_status]))
        | Some status =>
            let '(om, updated) :=
              OrderManager.update_order_status (order_manager self) order_id
                status in
            if updated then
              let s := stats self in
              let s' :=
                if decide (status = OrderStatus.COMPLETED)
                then mk_stats (orders_processed s + 1) (items_picked s)
                              (items_restocked s) (agv_movements s)
                else s in
              (set_stats (set_orders self om) s',
               [ ("success", VBool true);
                 ("message", VFmt [FLit "Updated order "; FStr order_id;
                                   FLit " status to "; FStr new_status]) ])
            else
              (set_orders self om,
               failure (VFmt [FLit "Failed to update order "; FStr order_id;
                              FLit " status"]))
        end
      else (self, unknown_action)
  | _, _ => (self, unknown_action)
  end.

Definition process_charge_agv (self : t) (action : Action.t) : t * pydict :=
  let amount := default 100%Q (Action.amount action) in
  match Action.agv_id action with
  | Some agv_id =>
      if truthy_str (Some agv_id) then
        match AGVManager.get_agv (agv_manager self) agv_id with
        | None =>
            (self, failure (VFmt [FLit "AGV "; FStr agv_id; FLit " not found"]))
        | Some agv =>
            if negb (String.eqb (AGV.location agv) "charging_station")
            then (self, failure (VFmt [FLit "AGV "; FStr agv_id;
                                       FLit " is not at a charging station"]))
            else
              let '(am, charged) :=
                AGVManager.charge_agv (agv_manager self) agv_id amount in
              if charged then
                (set_agvs self am,
                 [ ("success", VBool true);
                   ("message",
                    VFmt [FLit "Charged AGV "; FStr agv_id; FLit " to ";
                          FNum (from_option AGV.battery_level 0%Q
                                  (AGVManager.get_agv am agv_id));
                          FLit "%"]) ])
              else
                (set_agvs self am,
                 failure (VFmt [FLit "Failed to charge AGV "; FStr agv_id]))
        end
      else (self, unknown_action)
  | None => (self, unknown_action)
  end.

Definition process_action (self : t) (action : Action.t) : t * pydict :=
  match Action.type action with
  | Some action_type =>
      if String.eqb action_type "move_agv" then process_move_agv self action
      else if String.eqb action_type "pick_item"
      then process_pick_item self action
      else if String.eqb action_type "restock_item"
      then process_restock_item self action
      else if String.eqb action_type "process_order"
      then process_order self action
      else if String.eqb action_type "charge_agv"
      then process_charge_agv self action
      else (self, unknown_action)
  | None => (self, unknown_action)
  end.
End Warehouse.

(** ** Python float arithmetic (IEEE-754 binary64) *)

Module Float64.
Definition prec : Z := 53.
Definition emax : Z := 1024.

(** [float(n)], exact for [|n| <= 2^53]. *)
Definition of_int (n : Z) : spec_float := binary_normalize prec emax n 0 false.

(** [a / b] on integers (true division): the correctly rounded quotient,
    for operands that convert exactly. *)
Definition truediv (a b : Z) : outcome spec_float :=
  if decide (b = 0) then Raised ZeroDivisionError
  else Returned (SFdiv prec emax (of_int a) (of_int b)).

(** [x * n] for a float [x] and an integer [n]. *)
Definition mul_int (x : spec_float) (n : Z) : spec_float :=
  SFmul prec emax x (of_int n).

(** [int(x)]: truncation toward zero. *)
Definition to_int (x : spec_float) : outcome Z :=
  match x with
  | S754_zero _ => Returned 0
  | S754_infinity _ => Raised OverflowError
  | S754_nan => Raised ValueError
  | S754_finite s m e =>
      let magnitude :=
        if decide (0 <= e) then Z.pos m * 2 ^ e
        else Z.pos m / 2 ^ (- e) in
      Returned (if s then - magnitude else magnitude)
  end.
End Float64.

(** ** agents/restock_agent.py *)

Module RestockAgent.
Definition _calculate_restock_priority (item : InventoryItem.t) : outcome Z :=
  if decide (InventoryItem.quantity item = 0) then Returned 10
  else
    match Float64.truediv
            (InventoryItem.min_threshold item - InventoryItem.quantity item)
            (InventoryItem.min_threshold item) with
    | Raised e => Raised e
    | Returned threshold_percentage =>
        match Float64.to_int (Float64.mul_int threshold_percentage 10) with
        | Raised e => Raised e
        | Returned n => Returned (Z.min 9 (Z.max 1 n))
        end
    end.

(** One entry of the restock report, with its priority beside it. *)
Definition restock_need (item : InventoryItem.t) : outcome (Z * pydict) :=
  let restock_amount :=
    InventoryItem.max_capacity item - InventoryItem.quantity item in
  match _calculate_restock_priority item with
  | Raised e => Raised e
  | Returned priority =>
      Returned
        (priority,
         [ ("product_id", VStr (InventoryItem.product_id item));
           ("name", VStr (InventoryItem.name item));
           ("current_quantity", VInt (InventoryItem.quantity item));
           ("min_threshold", VInt (InventoryItem.min_threshold item));
           ("restock_amount", VInt restock_amount);
           ("location", VStr (InventoryItem.location item));
           ("priority", VInt priority) ])
  end.

Fixpoint restock_needs_of (l : list InventoryItem.t)
  : outcome (list (Z * pydict)) :=
  match l with
  | [] => Returned []
  | item :: l' =>
      match restock_need item with
      | Raised e => Raised e
      | Returned need =>
          match restock_needs_of l' with
          | Raised e => Raised e
          | Returned needs => Returned (need :: needs)
          end
      end
  end.

(** [list.sort(key=priority, reverse=True)]: stable, highest first. *)
Fixpoint insert_desc (x : Z * pydict) (l : list (Z * pydict))
  : list (Z * pydict) :=
  match l with
  | [] => [x]
  | y :: l' => if decide (fst y <= fst x) then x :: y :: l'
               else y :: insert_desc x l'
  end.

Definition sort_desc (l : list (Z * pydict)) : list (Z * pydict) :=
  foldr insert_desc [] l.

Definition get_restock_needs (w : Warehouse.t) : outcome (list pydict) :=
  match restock_needs_of
          (InventoryManager.get_items_below_threshold
             (Warehouse.inventory_manager w)) with
  | Raised e => Raised e
  | Returned needs => Returned (snd <$> sort_desc needs)
  end.

Definition plan_restock_operation (w : Warehouse.t) (product_id : string)
  : Warehouse.t * pydict :=
  match InventoryManager.get_item (Warehouse.inventory_manager w) product_id with
  | None =>
      (w, failure (VFmt [FLit "Product "; FStr product_id; FLit " not found"]))
  | Some item =>
      if negb (InventoryItem.needs_restock item) then
        (w, [ ("success", VBool true);
              ("message", VFmt [FLit "Product "; FStr product_id;
                                FLit " does not need restocking"]);
              ("restock_needed", VBool false) ])
      else
        match AGVManager.get_available_agvs (Warehouse.agv_manager w) with
        | [] => (w, failure (VStr "No available AGVs for restocking"))
        | selected_agv :: _ =>
            let restock_amount :=
              InventoryItem.max_capacity item - InventoryItem.quantity item in
            let agv_id := VStr (AGV.agv_id selected_agv) in
            (w,
             [ ("success", VBool true);
               ("restock_needed", VBool true);
               ("product_id", VStr product_id);
               ("product_name", VStr (InventoryItem.name item));
               ("current_quantity", VInt (InventoryItem.quantity item));
               ("restock_amount", VInt restock_amount);
               ("location", VStr (InventoryItem.location item));
               ("agv_id", agv_id);
               ("agv_name", VStr (AGV.name selected_agv));
               ("agv_location", VStr (AGV.location selected_agv));
               ("steps",
                VList
                  [ VDict [ ("step", VStr "move_agv_to_receiving");
                            ("agv_id", agv_id);
                            ("destination", VStr "receiving") ];
                    VDict [ ("step", VStr "load_inventory");
                            ("agv_id", agv_id);
                            ("product_id", VStr product_id);
                            ("quantity", VInt restock_amount) ];
                    VDict [ ("step", VStr "move_agv_to_storage");
                            ("agv_id", agv_id);
                            ("destination", VStr (InventoryItem.location item)) ];
                    VDict [ ("step", VStr "unload_inventory");
                            ("agv_id", agv_id);
                            ("product_id", VStr product_id);
                            ("quantity", VInt restock_amount) ] ]) ])
        end
  end.

(** The [execute_restock] branch of [execute_action], after its parameters
    were found present. *)
Definition execute_restock (w : Warehouse.t) (product_id agv_id : string)
    (restock_amount : Z) : Warehouse.t * pydict :=
  match InventoryManager.get_item (Warehouse.inventory_manager w) product_id,
        AGVManager.get_agv (Warehouse.agv_manager w) agv_id with
  | None, _ =>
      (w, failure (VFmt [FLit "Product "; FStr product_id; FLit " not found"]))
  | Some _, None =>
      (w, failure (VFmt [FLit "AGV "; FStr agv_id; FLit " not found"]))
  | Some item, Some agv =>
      if decide (AGV.status agv ≠ AGVStatus.IDLE) then
        (w, failure (VFmt [FLit "AGV "; FStr agv_id;
                           FLit " is not idle (current status: ";
                           FStatus (AGV.status agv); FLit ")"]))
      else
        (* 1. Move AGV to receiving *)
        let '(am1, move_to_receiving) :=
          AGVManager.move_agv (Warehouse.agv_manager w) agv_id "receiving" in
        if negb move_to_receiving then
          (Warehouse.set_agvs w am1,
           failure (VFmt [FLit "Failed to move AGV "; FStr agv_id;
                          FLit " to receiving"]))
        else
          (* 2. Load inventory onto AGV *)
          let '(am2, load_success) :=
            AGVManager.load_agv am1 agv_id product_id restock_amount in
          if negb load_success then
            (Warehouse.set_agvs w am2,
             failure (VFmt [FLit "Failed to load "; FInt restock_amount;
                            FLit " units of "; FStr product_id;
                            FLit " onto AGV "; FStr agv_id]))
          else
            (* 3. Move AGV to storage location *)
            let '(am3, move_to_storage) :=
              AGVManager.move_agv am2 agv_id (InventoryItem.location item) in
            if negb move_to_storage then
              (Warehouse.set_agvs w am3,
               failure (VFmt [FLit "Failed to move AGV "; FStr agv_id;
                              FLit " to "; FStr (InventoryItem.location item)]))
            else
              (* 4. Unload inventory from AGV to storage *)
              let '(am4, (_, unloaded_quantity)) :=
                AGVManager.unload_agv am3 agv_id product_id
                  (Some restock_amount) in
              if decide (unloaded_quantity > 0) then
                let '(im1, add_success) :=
                  InventoryManager.add_quantity
                    (Warehouse.inventory_manager w) product_id
                    unloaded_quantity in
                let w' :=
                  Warehouse.set_inventory (Warehouse.set_agvs w am4) im1 in
                if add_success then
                  (w',
                   [ ("success", VBool true);
                     ("product_id", VStr product_id);
                     ("restocked_quantity", VInt unloaded_quantity);
                     ("new_quantity",
                      from_option (fun i => VInt (InventoryItem.quantity i))
                        VNone (InventoryManager.get_item im1 product_id));
                     ("agv_id", VStr agv_id) ])
                else
                  (w',
                   failure (VFmt [FLit "Failed to add ";
                                  FInt unloaded_quantity; FLit " units of ";
                                  FStr product_id; FLit " to inventory"]))
              else
                (Warehouse.set_agvs w am4,
                 failure (VFmt [FLit "Failed to unload "; FStr product_id;
                                FLit " from AGV "; FStr agv_id]))
  end.

Definition execute_action (w : Warehouse.t) (action : Action.t)
  : Warehouse.t * outcome pydict :=
  let unknown :=
    (w, Returned (failure (VFmt [FLit "Unknown action type: ";
                                 from_option FStr (FLit "None")
                                   (Action.action action)]))) in
  match Action.action action with
  | None => unknown
  | Some action_type =>
      if String.eqb action_type "get_restock_needs" then
        match get_restock_needs w with
        | Raised e => (w, Raised e)
        | Returned restock_needs =>
            (w, Returned [ ("success", VBool true);
                           ("restock_needs", VList (VDict <$> restock_needs)) ])
        end
      else if String.eqb action_type "plan_restock" then
        match Action.product_id action with
        | Some product_id =>
            if truthy_str (Some product_id) then
              let '(w', restock_plan) := plan_restock_operation w product_id in
              (w', Returned restock_plan)
            else (w, Returned (failure (VStr "No product_id provided")))
        | None => (w, Returned (failure (VStr "No product_id provided")))
        end
      else if String.eqb action_type "execute_restock" then
        match Action.product_id action, Action.agv_id action,
              Action.restock_amount action with
        | Some product_id, Some agv_id, Some restock_amount =>
            if truthy_str (Some product_id) && truthy_str (Some agv_id)
               && truthy_int (Some restock_amount)
            then
              let '(w', result) :=
                execute_restock w product_id agv_id restock_amount in
              (w', Returned result)
            else
              (w, Returned (failure (VStr
                "Missing parameters (product_id, agv_id, or restock_amount)")))
        | _, _, _ =>
            (w, Returned (failure (VStr
              "Missing parameters (product_id, agv_id, or restock_amount)")))
        end
      else unknown
  end.
End RestockAgent.

(** ** agents/agv_planner.py *)

Module AGVPlannerAgent.
Definition agv_not_found (agv_id : string) : pydict :=
  failure (VFmt [FLit "AGV "; FStr agv_id; FLit " not found"]).

Definition plan_route (w : Warehouse.t) (agv_id destination : string)
  : list string :=
  match AGVManager.get_agv (Warehouse.agv_manager w) agv_id with
  | None => []
  | Some agv => [AGV.location agv; destination]
  end.

Definition move_agv (w : Warehouse.t) (action : Action.t)
  : Warehouse.t * pydict :=
  match Action.agv_id action, Action.destination action with
  | Some agv_id, Some destination =>
      if truthy_str (Some agv_id) && truthy_str (Some destination) then
        match AGVManager.get_agv (Warehouse.agv_manager w) agv_id with
        | None => (w, agv_not_found agv_id)
        | Some agv =>
            if decide (AGV.status agv ≠ AGVStatus.IDLE) then
              (w, failure (VFmt [FLit "AGV "; FStr agv_id;
                                 FLit " is not idle (current status: ";
                                 FStatus (AGV.status agv); FLit ")"]))
            else if negb (bool_decide (destination ∈ Warehouse.locations)) then
              (w, failure (VFmt [FLit "Invalid destination: ";
                                 FStr destination]))
            else
              let route := plan_route w agv_id destination in
              let '(am, success) :=
                AGVManager.move_agv (Warehouse.agv_manager w) agv_id
                  destination in
              if success then
                (Warehouse.set_agvs w am,
                 [ ("success", VBool true);
                   ("agv_id", VStr agv_id);
                   ("from_location", from_option VStr VNone (head route));
                   ("to_location", VStr destination);
                   ("route", VList (VStr <$> route)) ])
              else
                (Warehouse.set_agvs w am,
                 failure (VFmt [FLit "Failed to move AGV "; FStr agv_id;
                                FLit " to "; FStr destination]))
        end
      else (w, failure (VStr "Missing agv_id or destination"))
  | _, _ => (w, failure (VStr "Missing agv_id or destination"))
  end.

Definition charge_agv (w : Warehouse.t) (action : Action.t)
  : Warehouse.t * pydict :=
  let amount := default 100%Q (Action.amount action) in
  match Action.agv_id action with
  | Some agv_id =>
      if truthy_str (Some agv_id) then
        match AGVManager.get_agv (Warehouse.agv_manager w) agv_id with
        | None => (w, agv_not_found agv_id)
        | Some agv =>
            let '(am1, move_success) :=
              if negb (String.eqb (AGV.location agv) "charging_station")
              then AGVManager.move_agv (Warehouse.agv_manager w) agv_id
                     "charging_station"
              else (Warehouse.agv_manager w, true) in
            if negb move_success then
              (Warehouse.set_agvs w am1,
               failure (VFmt [FLit "Failed to move AGV "; FStr agv_id;
                              FLit " to charging station"]))
            else
              let '(am2, success) := AGVManager.charge_agv am1 agv_id amount in
              if success then
                (Warehouse.set_agvs w am2,
                 [ ("success", VBool true);
                   ("agv_id", VStr agv_id);
                   ("new_battery_level",
                    from_option (fun a => VNum (AGV.battery_level a)) VNone
                      (AGVManager.get_agv am2 agv_id)) ])
              else
                (Warehouse.set_agvs w am2,
                 failure (VFmt [FLit "Failed to charge AGV "; FStr agv_id]))
        end
      else (w, failure (VStr "Missing agv_id"))
  | None => (w, failure (VStr "Missing agv_id"))
  end.

(** The [load_agv] branch, after its parameters were found valid. *)
Definition load_agv_checked (w : Warehouse.t) (agv_id product_id : string)
    (quantity : Z) : Warehouse.t * pydict :=
  match AGVManager.get_agv (Warehouse.agv_manager w) agv_id with
  | None => (w, agv_not_found agv_id)
  | Some agv =>
      match InventoryManager.get_item (Warehouse.inventory_manager w)
              product_id with
      | None =>
          (w, failure (VFmt [FLit "Product "; FStr product_id;
                             FLit " not found"]))
      | Some item =>
          (* Move the AGV to the item's location if it is elsewhere *)
          let '(am1, move_success) :=
            if negb (String.eqb (AGV.location agv)
                                (InventoryItem.location item))
            then AGVManager.move_agv (Warehouse.agv_manager w) agv_id
                   (InventoryItem.location item)
            else (Warehouse.agv_manager w, true) in
          if negb move_success then
            (Warehouse.set_agvs w am1,
             failure (VFmt [FLit "Failed to move AGV "; FStr agv_id;
                            FLit " to "; FStr (InventoryItem.location item)]))
          else if decide (InventoryItem.quantity item < quantity) then
            (Warehouse.set_agvs w am1,
             failure (VFmt [FLit "Not enough inventory of "; FStr product_id;
                            FLit " (requested: "; FInt quantity;
                            FLit ", available: ";
                            FInt (InventoryItem.quantity item); FLit ")"]))
          else
            (* Remove from inventory *)
            let '(im1, inventory_success) :=
              InventoryManager.remove_quantity
                (Warehouse.inventory_manager w) product_id quantity in
            if negb inventory_success then
              (Warehouse.set_inventory (Warehouse.set_agvs w am1) im1,
               failure (VFmt [FLit "Failed to remove "; FInt quantity;
                              FLit " units of "; FStr product_id;
                              FLit " from inventory"]))
            else
              (* Load onto AGV *)
              let '(am2, load_success) :=
                AGVManager.load_agv am1 agv_id product_id quantity in
              if load_success then
                (Warehouse.set_inventory (Warehouse.set_agvs w am2) im1,
                 [ ("success", VBool true);
                   ("agv_id", VStr agv_id);
                   ("product_id", VStr product_id);
                   ("quantity", VInt quantity);
                   ("location",
                    from_option (fun a => VStr (AGV.location a)) VNone
                      (AGVManager.get_agv am2 agv_id)) ])
              else
                (* Revert inventory change if AGV loading fails *)
                let '(im2, _) :=
                  InventoryManager.add_quantity im1 product_id quantity in
                (Warehouse.set_inventory (Warehouse.set_agvs w am2) im2,
                 failure (VFmt [FLit "Failed to load "; FInt quantity;
                                FLit " units of "; FStr product_id;
                                FLit " onto AGV "; FStr agv_id]))
      end
  end.

Definition load_agv (w : Warehouse.t) (action : Action.t)
  : Warehouse.t * pydict :=
  let quantity := default 1 (Action.quantity action) in
  match Action.agv_id action, Action.product_id action with
  | Some agv_id, Some product_id =>
      if truthy_str (Some agv_id) && truthy_str (Some product_id)
         && bool_decide (quantity > 0)
      then load_agv_checked w agv_id product_id quantity
      else (w, failure (VStr "Invalid parameters for load_agv action"))
  | _, _ => (w, failure (VStr "Invalid parameters for load_agv action"))
  end.

(** The [unload_agv] branch, after its parameters were found present. *)
Definition unload_agv_checked (w : Warehouse.t) (agv_id product_id : string)
    (quantity : option Z) : Warehouse.t * outcome pydict :=
  match AGVManager.get_agv (Warehouse.agv_manager w) agv_id with
  | None => (w, Returned (agv_not_found agv_id))
  | Some agv =>
      if negb (bool_decide (is_Some (AGV.current_load agv !! product_id))) then
        (w, Returned (failure (VFmt [FLit "AGV "; FStr agv_id;
                                     FLit " does not have product ";
                                     FStr product_id])))
      else
        (* Unload from AGV *)
        let '(am1, (_, unloaded_quantity)) :=
          AGVManager.unload_agv (Warehouse.agv_manager w) agv_id product_id
            quantity in
        let location :=
          from_option (fun a => VStr (AGV.location a)) VNone
            (AGVManager.get_agv am1 agv_id) in
        if decide (unloaded_quantity > 0) then
          match InventoryManager.get_item (Warehouse.inventory_manager w)
                  product_id with
          | Some _ =>
              (* Add to existing inventory *)
              let '(im1, add_success) :=
                InventoryManager.add_quantity
                  (Warehouse.inventory_manager w) product_id
                  unloaded_quantity in
              if add_success then
                (Warehouse.set_inventory (Warehouse.set_agvs w am1) im1,
                 Returned [ ("success", VBool true);
                            ("agv_id", VStr agv_id);
                            ("product_id", VStr product_id);
                            ("quantity", VInt unloaded_quantity);
                            ("location", location) ])
              else
                (* Revert AGV change if inventory update fails *)
                let '(am2, _) :=
                  AGVManager.load_agv am1 agv_id product_id
                    unloaded_quantity in
                (Warehouse.set_inventory (Warehouse.set_agvs w am2) im1,
                 Returned (failure (VFmt [FLit "Failed to add ";
                                          FInt unloaded_quantity;
                                          FLit " units of "; FStr product_id;
                                          FLit " to inventory"])))
          | None =>
              (* Create new inventory item *)
              let '(im1, created) :=
                InventoryManager.add_item (Warehouse.inventory_manager w)
                  (DictObject
                     [ ("product_id", VStr product_id);
                       ("name", VFmt [FLit "Product "; FStr product_id]);
                       ("quantity", VInt unloaded_quantity);
                       ("location", location);
                       ("min_threshold", VInt 5);
                       ("max_capacity", VInt 100) ]) in
              let w' := Warehouse.set_inventory (Warehouse.set_agvs w am1) im1 in
              match created with
              | Raised e => (w', Raised e)
              | Returned _ =>
                  (w',
                   Returned [ ("success", VBool true);
                              ("agv_id", VStr agv_id);
                              ("product_id", VStr product_id);
                              ("quantity", VInt unloaded_quantity);
                              ("location", location);
                              ("new_inventory_item", VBool true) ])
              end
          end
        else
          (Warehouse.set_agvs w am1,
           Returned (failure (VFmt [FLit "Failed to unload ";
                                    FStr product_id; FLit " from AGV ";
                                    FStr agv_id])))
  end.

Definition unload_agv (w : Warehouse.t) (action : Action.t)
  : Warehouse.t * outcome pydict :=
  match Action.agv_id action, Action.product_id action with
  | Some agv_id, Some product_id =>
      if truthy_str (Some agv_id) && truthy_str (Some product_id)
      then unload_agv_checked w agv_id product_id (Action.quantity action)
      else (w, Returned (failure (VStr "Missing agv_id or product_id")))
  | _, _ => (w, Returned (failure (VStr "Missing agv_id or product_id")))
  end.

Definition execute_action (w : Warehouse.t) (action : Action.t)
  : Warehouse.t * outcome pydict :=
  let returned (r : Warehouse.t * pydict) := (fst r, Returned (snd r)) in
  let unknown :=
    (w, Returned (failure (VFmt [FLit "Unknown action type: ";
                                 from_option FStr (FLit "None")
                                   (Action.action action)]))) in
  match Action.action action with
  | None => unknown
  | Some action_type =>
      if String.eqb action_type "move_agv" then returned (move_agv w action)
      else if String.eqb action_type "charge_agv"
      then returned (charge_agv w action)
      else if String.eqb action_type "load_agv"
      then returned (load_agv w action)
      else if String.eqb action_type "unload_agv" then unload_agv w action
      else if String.eqb action_type "get_available_agvs" then
        (w, Returned
              [ ("success", VBool true);
                ("available_agvs",
                 VList ((fun a => VDict (AGV.to_dict a)) <$>
                        AGVManager.get_available_agvs
                          (Warehouse.agv_manager w))) ])
      else unknown
  end.
End AGVPlannerAgent.

(** ** agents/inventory_manager.py *)

Module InventoryManagerAgent.
Definition new_quantity (im : InventoryManager.t) (product_id : string)
  : Value :=
  from_option (fun i => VInt (InventoryItem.quantity i)) VNone
    (InventoryManager.get_item im product_id).

Definition check_inventory (w : Warehouse.t) (action : Action.t) : pydict :=
  match Action.product_id action with
  | Some product_id =>
      if truthy_str (Some product_id) then
        match InventoryManager.get_item (Warehouse.inventory_manager w)
                product_id with
        | Some item =>
            [ ("success", VBool true);
              ("product_id", VStr product_id);
              ("quantity", VInt (InventoryItem.quantity item));
              ("location", VStr (InventoryItem.location item));
              ("needs_restock", VBool (InventoryItem.needs_restock item)) ]
        | None =>
            failure (VFmt [FLit "Product "; FStr product_id;
                           FLit " not found"])
        end
      else failure (VStr "No product_id provided")
  | None => failure (VStr "No product_id provided")
  end.

Definition update_inventory (w : Warehouse.t) (action : Action.t)
  : Warehouse.t * pydict :=
  match Action.product_id action, Action.quantity action with
  | Some product_id, Some quantity =>
      let '(im, success) :=
        InventoryManager.update_quantity (Warehouse.inventory_manager w)
          product_id quantity in
      if success then
        (Warehouse.set_inventory w im,
         [ ("success", VBool true);
           ("product_id", VStr product_id);
           ("new_quantity", VInt quantity) ])
      else
        (Warehouse.set_inventory w im,
         failure (VFmt [FLit "Failed to update inventory for ";
                        FStr product_id]))
  | _, _ => (w, failure (VStr "Missing product_id or quantity"))
  end.

Definition add_inventory (w : Warehouse.t) (action : Action.t)
  : Warehouse.t * pydict :=
  let quantity := default 0 (Action.quantity action) in
  match Action.product_id action with
  | Some product_id =>
      if truthy_str (Some product_id) && bool_decide (quantity > 0) then
        let '(im, success) :=
          InventoryManager.add_quantity (Warehouse.inventory_manager w)
            product_id quantity in
        if success then
          (Warehouse.set_inventory w im,
           [ ("success", VBool true);
             ("product_id", VStr product_id);
             ("added_quantity", VInt quantity);
             ("new_quantity", new_quantity im product_id) ])
        else
          (Warehouse.set_inventory w im,
           failure (VFmt [FLit "Failed to add "; FInt quantity;
                          FLit " units to inventory for "; FStr product_id]))
      else (w, failure (VStr "Invalid product_id or quantity"))
  | None => (w, failure (VStr "Invalid product_id or quantity"))
  end.

Definition remove_inventory (w : Warehouse.t) (action : Action.t)
  : Warehouse.t * pydict :=
  let quantity := default 0 (Action.quantity action) in
  match Action.product_id action with
  | Some product_id =>
      if truthy_str (Some product_id) && bool_decide (quantity > 0) then
        let '(im, success) :=
          InventoryManager.remove_quantity (Warehouse.inventory_manager w)
            product_id quantity in
        if success then
          (Warehouse.set_inventory w im,
           [ ("success", VBool true);
             ("product_id", VStr product_id);
             ("removed_quantity", VInt quantity);
             ("new_quantity", new_quantity im product_id) ])
        else
          (Warehouse.set_inventory w im,
           failure (VFmt [FLit "Failed to remove "; FInt quantity;
                          FLit " units from inventory for ";
                          FStr product_id]))
      else (w, failure (VStr "Invalid product_id or quantity"))
  | None => (w, failure (VStr "Invalid product_id or quantity"))
  end.

Definition add_new_product (w : Warehouse.t) (action : Action.t)
  : Warehouse.t * pydict :=
  match Action.product_data action with
  | Some product_data =>
      match ProductData.product_id product_data,
            ProductData.name product_data with
      | Some product_id, Some name =>
          let new_item :=
            InventoryItem.mk product_id name
              (default 0 (ProductData.quantity product_data))
              (default "storage_a" (ProductData.location product_data))
              (default 5 (ProductData.min_threshold product_data))
              (default 100 (ProductData.max_capacity product_data)) in
          match InventoryManager.add_item (Warehouse.inventory_manager w)
                  (ItemObject new_item) with
          | (im, Returned _) =>
              (Warehouse.set_inventory w im,
               [ ("success", VBool true);
                 ("product", VDict (InventoryItem.to_dict new_item)) ])
          | (im, Raised e) =>
              (* [except Exception as e] *)
              (Warehouse.set_inventory w im,
               failure (VStr "Error adding new product"))
          end
      | _, _ => (w, failure (VStr "Invalid product data"))
      end
  | None => (w, failure (VStr "Invalid product data"))
  end.

Definition execute_action (w : Warehouse.t) (action : Action.t)
  : Warehouse.t * outcome pydict :=
  let returned (r : Warehouse.t * pydict) := (fst r, Returned (snd r)) in
  let unknown :=
    (w, Returned (failure (VFmt [FLit "Unknown action type: ";
                                 from_option FStr (FLit "None")
                                   (Action.action action)]))) in
  match Action.action action with
  | None => unknown
  | Some action_type =>
      if String.eqb action_type "check_inventory"
      then (w, Returned (check_inventory w action))
      else if String.eqb action_type "update_inventory"
      then returned (update_inventory w action)
      else if String.eqb action_type "add_inventory"
      then returned (add_inventory w action)
      else if String.eqb action_type "remove_inventory"
      then returned (remove_inventory w action)
      else if String.eqb action_type "add_new_product"
      then returned (add_new_product w action)
      else unknown
  end.
End InventoryManagerAgent.

(** ** agents/coordinator.py *)

(** An entry of [action_history]: [{"type": "action", "action": ...}] or
    [{"type": "result", "action": ..., "result": ...}].  The delegates only
    read the action dictionary they are handed, so an entry is kept by
    value. *)
Inductive log_entry :=
| ActionEntry (action : Action.t)
| ResultEntry (action : Action.t) (result : pydict).

Module CoordinatorAgent.
Record t := mk {
  warehouse : Warehouse.t;
  action_history : list log_entry
}.

Definition _log_action (self : t) (action : Action.t) : t :=
  mk (warehouse self) (action_history self ++ [ActionEntry action]).

Definition _log_result (self : t) (action : Action.t) (result : pydict) : t :=
  mk (warehouse self) (action_history self ++ [ResultEntry action result]).

(** Route to the appropriate agent. *)
Definition route (w : Warehouse.t) (action : Action.t)
  : Warehouse.t * outcome pydict :=
  let unknown :=
    (w, Returned (failure (VFmt [FLit "Unknown agent type: ";
                                 from_option FStr (FLit "None")
                                   (Action.agent action)]))) in
  match Action.agent action with
  | None => unknown
  | Some agent_type =>
      if String.eqb agent_type "inventory"
      then InventoryManagerAgent.execute_action w action
      else if String.eqb agent_type "agv"
      then AGVPlannerAgent.execute_action w action
      else if String.eqb agent_type "restock"
      then RestockAgent.execute_action w action
      else if String.eqb agent_type "warehouse" then
        let '(w', result) := Warehouse.process_action w action in
        (w', Returned result)
      else unknown
  end.

Definition execute_action (self : t) (action : Action.t)
  : t * outcome pydict :=
  if negb (truthy_str (Action.type action)) then
    (self, Returned (failure (VStr "No action type specified")))
  else
    let logged := _log_action self action in
    match route (warehouse logged) action with
    | (w', Raised e) => (mk w' (action_history logged), Raised e)
    | (w', Returned result) =>
        (_log_result (mk w' (action_history logged)) action result,
         Returned result)
    end.

(** The [for] loop of [execute_plan], with [results] as accumulated so
    far. *)
Fixpoint execute_plan_from (self : t) (results : list pydict)
    (plan : list Action.t) : t * outcome (list pydict) :=
  match plan with
  | [] => (self, Returned results)
  | action :: rest =>
      match execute_action self action with
      | (self', Raised e) => (self', Raised e)
      | (self', Returned result) =>
          let results' := results ++ [result] in
          if negb (succeeded result) then (self', Returned results')
          else execute_plan_from self' results' rest
      end
  end.

Definition execute_plan (self : t) (plan : list Action.t)
  : t * outcome (list pydict) :=
  execute_plan_from self [] plan.

Definition get_action_history (self : t) (limit : Z) : list log_entry :=
  if decide (limit > 0)
  then drop (length (action_history self) - Z.to_nat limit)
            (action_history self)
  else action_history self.
End CoordinatorAgent.

(** A plan prefix whose actions all return a result that reports success:
    [run_ok c plan results c'] runs [plan] from [c] one [execute_action] at a
    time, collecting [results] and ending in [c']. *)
Inductive run_ok
  : CoordinatorAgent.t -> list Action.t -> list pydict -> CoordinatorAgent.t
    -> Prop :=
| run_ok_nil c : run_ok c [] [] c
| run_ok_cons c action result c1 rest results c2 :
    CoordinatorAgent.execute_action c action = (c1, Returned result) ->
    succeeded result = true ->
    run_ok c1 rest results c2 ->
    run_ok c (action :: rest) (result :: results) c2.

(** ** Ledger call sequences *)

Inductive ledger_call :=
| AddQuantity (product_id : string) (n : Z)
| RemoveQuantity (product_id : string) (n : Z).

Definition call_product (c : ledger_call) : string :=
  match c with AddQuantity p _ | RemoveQuantity p _ => p end.

Definition call_amount (c : ledger_call) : Z :=
  match c with AddQuantity _ n | RemoveQuantity _ n => n end.

Definition ledger_step (im : InventoryManager.t) (c : ledger_call)
  : InventoryManager.t * bool :=
  match c with
  | AddQuantity p n => InventoryManager.add_quantity im p n
  | RemoveQuantity p n => InventoryManager.remove_quantity im p n
  end.

(** The ledger and the returned flag after each call of a sequence. *)
Fixpoint ledger_run (im : InventoryManager.t) (calls : list ledger_call)
  : list (InventoryManager.t * bool) :=
  match calls with
  | [] => []
  | c :: calls' =>
      let st := ledger_step im c in st :: ledger_run (fst st) calls'
  end.

Definition item_ok (item : InventoryItem.t) : Prop :=
  0 <= InventoryItem.quantity item <= InventoryItem.max_capacity item.

Definition ledger_ok (im : InventoryManager.t) : Prop :=
  forall p item, InventoryManager.get_item im p = Some item -> item_ok item.

(** The quantity a call asks for, were it applied in full. *)
Definition requested_quantity (item : InventoryItem.t) (c : ledger_call) : Z :=
  match c with
  | AddQuantity _ n => InventoryItem.quantity item + n
  | RemoveQuantity _ n => InventoryItem.quantity item - n
  end.

Definition would_violate (im : InventoryManager.t) (c : ledger_call) : Prop :=
  exists item,
    InventoryManager.get_item im (call_product c) = Some item /\
    (requested_quantity item c < 0 \/
     requested_quantity item c > InventoryItem.max_capacity item).

(** ** The restock priority as the specification words it *)





Definition stock_item (quantity min_threshold : Z) : InventoryItem.t :=
  InventoryItem.mk "P" "Product P" quantity "storage_a" min_threshold 100.



(** ** The seed data of [Warehouse.initialize_demo_data] *)

Definition demo_items : list InventoryItem.t :=
  [ InventoryItem.mk "P001" "Smartphone" 50 "storage_a" 10 100;
    InventoryItem.mk "P002" "Laptop" 20 "storage_a" 5 50;
    InventoryItem.mk "P003" "Tablet" 30 "storage_b" 8 80;
    InventoryItem.mk "P004" "Headphones" 100 "storage_b" 20 200;
    InventoryItem.mk "P005" "Smartwatch" 15 "storage_c" 5 50 ].

Definition demo_agvs : list AGV.t :=
  [ AGV.mk "AGV001" "Picker Bot 1" "charging_station" AGVStatus.IDLE 100 50 ∅;
    AGV.mk "AGV002" "Picker Bot 2" "storage_a" AGVStatus.IDLE 85 50 ∅;
    AGV.mk "AGV003" "Heavy Lifter 1" "receiving" AGVStatus.IDLE 90 100 ∅ ].

Definition warehouse_of (items : list InventoryItem.t) (agvs : list AGV.t)
  : Warehouse.t :=
  Warehouse.mk
    (foldl (fun im item => fst (InventoryManager.add_item im (ItemObject item)))
           (InventoryManager.mk ∅ []) items)
    (foldl AGVManager.add_agv (AGVManager.mk ∅ []) agvs)
    (OrderManager.mk ∅ [])
    (Warehouse.mk_stats 0 0 0 0).

Definition demo_warehouse : Warehouse.t := warehouse_of demo_items demo_agvs.

(** Reading one ledger quantity and one agent's cargo. *)
Definition ledger_quantity (w : Warehouse.t) (product_id : string) : option Z :=
  InventoryItem.quantity <$>
    InventoryManager.get_item (Warehouse.inventory_manager w) product_id.

Definition cargo (w : Warehouse.t) (agv_id : string) : option (gmap string Z) :=
  AGV.current_load <$> AGVManager.get_agv (Warehouse.agv_manager w) agv_id.


(** ** Sample requests *)

Definition agv_request (action agv_id : string)
    (product_id destination : option string) (quantity : option Z) : Action.t :=
  Action.mk (Some action) (Some "agv") (Some action) product_id (Some agv_id)
            quantity destination None None None None None None.

Definition move_to_storage_a : Action.t :=
  agv_request "move_agv" "AGV001" None (Some "storage_a") None.

Definition load_unknown_product : Action.t :=
  agv_request "load_agv" "AGV001" (Some "P404") None (Some 1).

Definition charge_agv001 : Action.t :=
  agv_request "charge_agv" "AGV001" None None None.




(** A fleet whose one agent carries a product that the ledger does not know. *)
Definition stray_cargo_warehouse : Warehouse.t :=
  warehouse_of demo_items
    [ AGV.mk "AGV001" "Picker Bot 1" "storage_a" AGVStatus.IDLE 100 50
             {[ "P999" := 5 ]} ].

Definition unload_stray_cargo : Action.t :=
  agv_request "unload_agv" "AGV001" (Some "P999") None None.

Definition demo_coordinator : CoordinatorAgent.t :=
  CoordinatorAgent.mk demo_warehouse [].

(** The dictionary an outcome returned, empty if it raised. *)
Definition returned_result (o : outcome pydict) : pydict :=
  match o with
  | Returned result => result
  | Raised _ => []
  end.

Definition demo_calls : list ledger_call :=
  [ AddQuantity "P001" 60; RemoveQuantity "P001" 20; AddQuantity "P001" 70;
    RemoveQuantity "P002" 30 ].

Definition short_circuit_plan : list Action.t :=
  [ move_to_storage_a; load_unknown_product; charge_agv001 ].

(** ** Invariants of the stores *)

(** The battery of an agent is a percentage. *)
Definition battery_ok (agv : AGV.t) : Prop :=
  (0 <= AGV.battery_level agv <= 100)%Q.

(** What an agent holds of one product: 0 when it has no line for it. *)
Definition held (agv : AGV.t) (product_id : string) : Z :=
  default 0 (AGV.current_load agv !! product_id).

(** Every line of an agent's load carries a positive quantity. *)
Definition load_positive (agv : AGV.t) : Prop :=
  forall p n, AGV.current_load agv !! p = Some n -> 0 < n.

(** The insertion order lists exactly the keys of the dictionary, once. *)
Definition keys_match {A} (keys : list string) (m : gmap string A) : Prop :=
  NoDup keys /\ forall k, k ∈ keys <-> is_Some (m !! k).



(** The journal entries of a run: for each executed action, its action entry
    followed by its result entry. *)
Definition journal_of (plan : list Action.t) (results : list pydict)
  : list log_entry :=
  flat_map (fun ar : Action.t * pydict =>
              [ActionEntry (fst ar); ResultEntry (fst ar) (snd ar)])
           (zip plan results).

(** The agents the coordinator routes to, and the keys each one handles. *)
Definition known_agents : list string :=
  [ "inventory"; "agv"; "restock"; "warehouse" ].

Definition handled_keys (agent : string) : list string :=
  if String.eqb agent "inventory"
  then [ "check_inventory"; "update_inventory"; "add_inventory";
         "remove_inventory"; "add_new_product" ]
  else if String.eqb agent "agv"
  then [ "move_agv"; "charge_agv"; "load_agv"; "unload_agv";
         "get_available_agvs" ]
  else if String.eqb agent "restock"
  then [ "get_restock_needs"; "plan_restock"; "execute_restock" ]
  else if String.eqb agent "warehouse"
  then [ "move_agv"; "pick_item"; "restock_item"; "process_order";
         "charge_agv" ]
  else [].

(** The key an agent dispatches on: the warehouse reads [type], the three
    agents read [action]. *)
Definition dispatch_key (agent : string) (action : Action.t) : option string :=
  if String.eqb agent "warehouse" then Action.type action
  else Action.action action.

(** The two requests whose numbers the code does not check before it writes
    them to the ledger: a [pick_item] sent straight to the warehouse, and the
    initial stock of an [add_new_product]. *)
Definition pick_is_positive (action : Action.t) : Prop :=
  Action.agent action = Some "warehouse" ->
  Action.type action = Some "pick_item" ->
  0 < default 1 (Action.quantity action).

Definition new_product_in_bounds (action : Action.t) : Prop :=
  forall data, Action.product_data action = Some data ->
    0 <= default 0 (ProductData.quantity data)
      <= default 100 (ProductData.max_capacity data).

Definition checked_request (action : Action.t) : Prop :=
  pick_is_positive action /\ new_product_in_bounds action.

Definition warehouse_ledger_ok (w : Warehouse.t) : Prop :=
  ledger_ok (Warehouse.inventory_manager w).

(** A [pick_item] for a negative quantity, sent straight to the warehouse. *)
Definition pick_negative : Action.t :=
  Action.mk (Some "pick_item") (Some "warehouse") (Some "pick_item")
            (Some "P001") (Some "AGV002") (Some (-60)) None None None None
            None None None.

(** ** The remaining methods of simulation/order.py *)

Module OrderOps.
(** [Order.add_item] on the lines of the order: the first line of the
    product takes the quantity; without one a new line is appended. *)
Fixpoint add_line (lines : list (string * Z)) (product_id : string)
    (quantity : Z) : list (string * Z) :=
  match lines with
  | [] => [(product_id, quantity)]
  | (p, n) :: rest =>
      if String.eqb p product_id then (p, n + quantity) :: rest
      else (p, n) :: add_line rest product_id quantity
  end.

Definition add_item (self : Order.t) (product_id : string) (quantity : Z)
  : Order.t :=
  Order.mk (Order.order_id self) (Order.customer_id self)
           (add_line (Order.items self) product_id quantity)
           (Order.status self) (Order.priority self).

(** [Order.remove_item] on the lines: the first line of the product is
    popped; [None] when the loop finds none. *)
Fixpoint remove_line (lines : list (string * Z)) (product_id : string)
  : option (list (string * Z)) :=
  match lines with
  | [] => None
  | (p, n) :: rest =>
      if String.eqb p product_id then Some rest
      else cons (p, n) <$> remove_line rest product_id
  end.

Definition remove_item (self : Order.t) (product_id : string)
  : Order.t * bool :=
  match remove_line (Order.items self) product_id with
  | Some lines =>
      (Order.mk (Order.order_id self) (Order.customer_id self) lines
                (Order.status self) (Order.priority self), true)
  | None => (self, false)
  end.

(** [sum(item.quantity for item in self.items)] *)
Definition get_total_items (self : Order.t) : Z :=
  foldr (fun line acc => snd line + acc) 0 (Order.items self).
End OrderOps.

Module OrderManagerOps.
Definition put (self : OrderManager.t) (order_id : string) (order : Order.t)
  : OrderManager.t :=
  OrderManager.mk (<[order_id := order]> (OrderManager.orders self))
                  (OrderManager.order_keys self).

Definition get_all_orders (self : OrderManager.t) : list Order.t :=
  omap (fun k => OrderManager.orders self !! k) (OrderManager.order_keys self).

Definition get_orders_by_status (self : OrderManager.t) (s : OrderStatus.t)
  : list Order.t :=
  filter (fun order => Order.status order = s) (get_all_orders self).



Definition cancel_order (self : OrderManager.t) (order_id : string)
  : OrderManager.t * bool :=
  OrderManager.update_order_status self order_id OrderStatus.CANCELLED.

Definition complete_order (self : OrderManager.t) (order_id : string)
  : OrderManager.t * bool :=
  OrderManager.update_order_status self order_id OrderStatus.COMPLETED.
End OrderManagerOps.

(** The product ids of an order's lines, in order. *)
Definition order_products (order : Order.t) : list string :=
  fst <$> Order.items order.

(** The quantity an order asks of a product, over all its lines. *)
Definition ordered_quantity (order : Order.t) (product_id : string) : Z :=
  foldr (fun line acc =>
           if String.eqb (fst line) product_id then snd line + acc else acc)
        0 (Order.items order).

(** ** More sample data *)

Definition agv001 : AGV.t :=
  AGV.mk "AGV001" "Picker Bot 1" "charging_station" AGVStatus.IDLE 100 50 ∅.
Definition agv002 : AGV.t :=
  AGV.mk "AGV002" "Picker Bot 2" "storage_a" AGVStatus.IDLE 85 50 ∅.
Definition agv003 : AGV.t :=
  AGV.mk "AGV003" "Heavy Lifter 1" "receiving" AGVStatus.IDLE 90 100 ∅.
Definition smartphone : InventoryItem.t :=
  InventoryItem.mk "P001" "Smartphone" 50 "storage_a" 10 100.

(** Three products at or below a threshold of 10, with 9, 0 and 3 in stock,
    and a fleet whose first agent can carry a full restock. *)
Definition cable : InventoryItem.t :=
  InventoryItem.mk "P101" "Cable" 9 "storage_a" 10 100.
Definition charger : InventoryItem.t :=
  InventoryItem.mk "P102" "Charger" 0 "storage_b" 10 100.
Definition case : InventoryItem.t :=
  InventoryItem.mk "P103" "Case" 3 "storage_c" 10 100.

Definition low_stock_warehouse : Warehouse.t :=
  warehouse_of [cable; charger; case] [agv003; agv001].



Definition unknown_agent_request : Action.t :=
  Action.mk (Some "audit") (Some "auditor") (Some "audit") None None None None
            None None None None None None.

Definition complete_order_request : Action.t :=
  Action.mk (Some "process_order") (Some "warehouse") (Some "process_order")
            None None None None None None None (Some "O-1") (Some "completed")
            None.

Definition sample_order : Order.t :=
  Order.mk "O-1" "C001" [("P001", 2); ("P004", 1)] OrderStatus.PENDING 2.

Definition order_book : OrderManager.t :=
  OrderManager.mk {[ "O-1" := sample_order ]} ["O-1"].

Definition order_warehouse : Warehouse.t :=
  Warehouse.mk (Warehouse.inventory_manager demo_warehouse)
               (Warehouse.agv_manager demo_warehouse)
               order_book
               (Warehouse.mk_stats 0 0 0 0).

(** The report an outcome returned, empty if it raised. *)
Definition returned_report (o : outcome (list pydict)) : list pydict :=
  match o with
  | Returned report => report
  | Raised _ => []
  end.

(** A ledger holding the smartphone only. *)
Definition single_item_ledger : InventoryManager.t :=
  InventoryManager.mk {[ "P001" := smartphone ]} ["P001"].

(* ================================================================== *)
(** * Properties *)

(** ** Stores *)

Lemma inventory_put_same im k item :
  InventoryManager.get_item im k = Some item ->
  InventoryManager.put im k item = im.
Proof.
  destruct im as [items keys].
  unfold InventoryManager.get_item, InventoryManager.put; simpl; intros H.
  rewrite insert_id by done.
  rewrite bool_decide_eq_true_2 by (rewrite H; eauto).
  reflexivity.
Qed.

Lemma inventory_get_put im k k' item :
  InventoryManager.get_item (InventoryManager.put im k item) k'
  = if decide (k = k') then Some item else InventoryManager.get_item im k'.
Proof. unfold InventoryManager.get_item, InventoryManager.put; simpl. apply lookup_insert. Qed.

Lemma fleet_put_same am k agv :
  AGVManager.get_agv am k = Some agv -> AGVManager.put am k agv = am.
Proof.
  destruct am as [agvs keys].
  unfold AGVManager.get_agv, AGVManager.put; simpl; intros H.
  rewrite insert_id by done.
  rewrite bool_decide_eq_true_2 by (rewrite H; eauto).
  reflexivity.
Qed.

Lemma fleet_get_put am k k' agv :
  AGVManager.get_agv (AGVManager.put am k agv) k'
  = if decide (k = k') then Some agv else AGVManager.get_agv am k'.
Proof. unfold AGVManager.get_agv, AGVManager.put; simpl. apply lookup_insert. Qed.

(** ** Inventory Ledger *)

Lemma item_add_cases item n :
  InventoryItem.add item n
  = if decide (InventoryItem.quantity item + n <= InventoryItem.max_capacity item)
    then (InventoryItem.set_quantity item (InventoryItem.quantity item + n), true)
    else (item, false).
Proof.
  unfold InventoryItem.add, InventoryItem.can_add.
  case_bool_decide; case_decide; simpl; try reflexivity; lia.
Qed.

Lemma ledger_step_ok im c :
  ledger_ok im -> 0 < call_amount c -> ledger_ok (fst (ledger_step im c)).
Proof.
  intros Hok Hpos.
  destruct c as [p n | p n]; simpl in *.
  - unfold InventoryManager.add_quantity.
    destruct (InventoryManager.get_item im p) as [item|] eqn:Hget; [|exact Hok].
    rewrite item_add_cases. pose proof (Hok p item Hget) as Hitem.
    case_decide; simpl.
    + intros p' item'. rewrite inventory_get_put.
      case_decide; [|apply Hok].
      intros [= <-]. unfold item_ok in *; simpl. lia.
    + rewrite inventory_put_same by done. exact Hok.
  - unfold InventoryManager.remove_quantity.
    destruct (InventoryManager.get_item im p) as [item|] eqn:Hget; [|exact Hok].
    unfold InventoryItem.remove. pose proof (Hok p item Hget) as Hitem.
    case_decide; simpl.
    + rewrite inventory_put_same by done. exact Hok.
    + intros p' item'. rewrite inventory_get_put.
      case_decide; [|apply Hok].
      intros [= <-]. unfold item_ok in *; simpl. lia.
Qed.

Lemma ledger_step_rejects im c :
  ledger_ok im -> 0 < call_amount c -> would_violate im c ->
  ledger_step im c = (im, false).
Proof.
  intros Hok Hpos (item & Hget & Hbad).
  pose proof (Hok _ item Hget) as Hitem. unfold item_ok in Hitem.
  destruct c as [p n | p n]; simpl in *.
  - unfold InventoryManager.add_quantity. rewrite Hget, item_add_cases.
    case_decide; [lia|]. by rewrite inventory_put_same.
  - unfold InventoryManager.remove_quantity, InventoryItem.remove. rewrite Hget.
    case_decide; [|lia]. by rewrite inventory_put_same.
Qed.

(** C3.  Starting from a ledger whose items satisfy
    [0 <= quantity <= max_capacity], after every call of any sequence of
    [add_quantity]/[remove_quantity] calls with positive amounts every item
    still satisfies the bounds; and on any such ledger a call whose full
    application would leave the bounds returns [False] and leaves the ledger
    as it was. *)
Theorem ledger_invariant (im : InventoryManager.t) (calls : list ledger_call) :
  ledger_ok im ->
  Forall (fun c => 0 < call_amount c) calls ->
  Forall (fun st => ledger_ok (fst st)) (ledger_run im calls)
  /\ (forall im' c,
        ledger_ok im' -> 0 < call_amount c -> would_violate im' c ->
        ledger_step im' c = (im', false)).
Proof.
  intros Hok Hpos. split; [|apply ledger_step_rejects].
  revert im Hok. induction Hpos as [|c calls Hc _ IH]; intros im Hok; simpl.
  - constructor.
  - constructor.
    + by apply ledger_step_ok.
    + apply IH. by apply ledger_step_ok.
Qed.

Lemma demo_ledger_ok : ledger_ok (Warehouse.inventory_manager demo_warehouse).
Proof.
  change (map_Forall (fun (_ : string) item =>
            0 <= InventoryItem.quantity item <= InventoryItem.max_capacity item)
          (InventoryManager.items (Warehouse.inventory_manager demo_warehouse))).
  refine (bool_decide_unpack _ _). vm_compute. exact I.
Defined.

Lemma demo_calls_positive : Forall (fun c => 0 < call_amount c) demo_calls.
Proof. repeat constructor. Defined.

(** On the seed ledger: adding 60 to the 50 of P001 (capacity 100) and
    removing 30 from the 20 of P002 are refused, the other two calls are
    applied, and the bounds hold throughout. *)
Lemma ledger_invariant_witness :
  ledger_ok (Warehouse.inventory_manager demo_warehouse)
  /\ Forall (fun c => 0 < call_amount c) demo_calls
  /\ snd <$> ledger_run (Warehouse.inventory_manager demo_warehouse) demo_calls
     = [false; true; true; false]
  /\ Forall (fun st => ledger_ok (fst st))
       (ledger_run (Warehouse.inventory_manager demo_warehouse) demo_calls).
Proof.
  split; [exact demo_ledger_ok|]. split; [exact demo_calls_positive|].
  split; [vm_compute; reflexivity|].
  exact (proj1 (ledger_invariant (Warehouse.inventory_manager demo_warehouse)
                  demo_calls demo_ledger_ok demo_calls_positive)).
Defined.

(** ** Fleet Registry *)

Lemma sum_values_insert (m : gmap string Z) k v :
  sum_values (<[k := v]> m) = sum_values m - default 0 (m !! k) + v.
Proof.
  assert (Hcomm : forall (j1 j2 : string) (z1 z2 y : Z),
             y + z2 + z1 = y + z1 + z2) by (intros; lia).
  unfold sum_values. destruct (m !! k) as [old|] eqn:Hk; simpl.
  - rewrite <- insert_delete_eq.
    rewrite map_fold_insert_L; [|by intros; apply Hcomm|apply lookup_delete_eq].
    rewrite (map_fold_delete_L _ _ k old m); [lia|by intros; apply Hcomm|done].
  - rewrite map_fold_insert_L; [lia|by intros; apply Hcomm|done].
Qed.

Lemma int_gt_float_true n c : int_gt_float n c = true <-> (c < inject_Z n)%Q.
Proof.
  unfold int_gt_float. destruct (Qlt_le_dec c (inject_Z n)) as [H|H].
  - tauto.
  - split; [discriminate|]. intros H'. exfalso. by apply (Qlt_not_le _ _ H').
Qed.

Lemma int_gt_float_false n c : int_gt_float n c = false <-> (inject_Z n <= c)%Q.
Proof.
  unfold int_gt_float. destruct (Qlt_le_dec c (inject_Z n)) as [H|H].
  - split; [discriminate|]. intros H'. exfalso. by apply (Qlt_not_le _ _ H).
  - tauto.
Qed.

(** C4.  A successful [load_item] leaves the sum of [current_load] within
    [max_capacity]; a request that would exceed [max_capacity], or that
    arrives when the agent is not idle, returns [False] and leaves the agent,
    its [current_load] included, as it was. *)
Theorem load_item_capacity (self : AGV.t) (product_id : string) (quantity : Z) :
  (forall self',
     AGV.load_item self product_id quantity = (self', true) ->
     (inject_Z (sum_values (AGV.current_load self')) <= AGV.max_capacity self')%Q)
  /\ (AGV.status self <> AGVStatus.IDLE \/
      (AGV.max_capacity self
       < inject_Z (sum_values (AGV.current_load self) + quantity))%Q ->
      AGV.load_item self product_id quantity = (self, false)).
Proof.
  unfold AGV.load_item. split.
  - intros self'. case_decide; [discriminate|].
    destruct (int_gt_float _ _) eqn:Hcap; [discriminate|].
    intros [= <-]; simpl. apply int_gt_float_false in Hcap.
    destruct (AGV.current_load self !! product_id) as [held|] eqn:Hheld;
      rewrite sum_values_insert, Hheld; simpl;
      (eapply Qle_trans; [|exact Hcap]); rewrite <- Zle_Qle; lia.
  - intros [Hbusy | Hover].
    + by rewrite decide_True.
    + case_decide; [reflexivity|]. apply int_gt_float_true in Hover.
      by rewrite Hover.
Qed.

(** The heavy lifter (capacity 100) takes 60 units and stays within its
    capacity; the picker (capacity 50) refuses them and is left as it was. *)
Lemma load_item_capacity_witness :
  (inject_Z
     (sum_values
        (AGV.current_load
           (fst (AGV.load_item
                   (AGV.mk "AGV003" "Heavy Lifter 1" "receiving" AGVStatus.IDLE
                           90 100 ∅)
                   "P001" 60))))
   <= 100)%Q
  /\ AGV.load_item
       (AGV.mk "AGV002" "Picker Bot 2" "storage_a" AGVStatus.IDLE 85 50 ∅)
       "P001" 60
     = (AGV.mk "AGV002" "Picker Bot 2" "storage_a" AGVStatus.IDLE 85 50 ∅,
        false).
Proof.
  split.
  - refine (proj1 (load_item_capacity
                     (AGV.mk "AGV003" "Heavy Lifter 1" "receiving"
                             AGVStatus.IDLE 90 100 ∅)
                     "P001" 60) _ _).
    vm_compute. reflexivity.
  - refine (proj2 (load_item_capacity
                     (AGV.mk "AGV002" "Picker Bot 2" "storage_a"
                             AGVStatus.IDLE 85 50 ∅)
                     "P001" 60) _).
    right. vm_compute. reflexivity.
Defined.

(** C10.  On an idle agent that holds [h] of product [p], [unload_item] with
    the quantity omitted, or with a requested quantity of at least [h],
    returns [(p, h)] and removes the whole line for [p] from [current_load]:
    the request is capped at what is held. *)
Theorem unload_item_capped (self : AGV.t) (p : string) (h : Z) (q : option Z) :
  AGV.status self = AGVStatus.IDLE ->
  AGV.current_load self !! p = Some h ->
  (forall n, q = Some n -> n >= h) ->
  snd (AGV.unload_item self p q) = (p, h)
  /\ AGV.current_load (fst (AGV.unload_item self p q))
     = delete p (AGV.current_load self)
  /\ AGV.current_load (fst (AGV.unload_item self p q)) !! p = None.
Proof.
  intros Hidle Hheld Hq. unfold AGV.unload_item.
  rewrite decide_False by (rewrite Hidle; intros H; by apply H).
  rewrite Hheld.
  destruct q as [n|].
  - specialize (Hq n eq_refl). rewrite decide_True by done. simpl.
    repeat split. apply lookup_delete_eq.
  - simpl. repeat split. apply lookup_delete_eq.
Qed.

(** Asked for 8 of the 5 units it holds, the agent gives up the 5. *)
Lemma unload_item_capped_witness :
  AGV.current_load
    (AGV.mk "AGV001" "Picker Bot 1" "storage_a" AGVStatus.IDLE 100 50
            {[ "P999" := 5 ]}) !! "P999"
  = Some 5
  /\ snd (AGV.unload_item
            (AGV.mk "AGV001" "Picker Bot 1" "storage_a" AGVStatus.IDLE 100 50
                    {[ "P999" := 5 ]})
            "P999" (Some 8))
     = ("P999", 5).
Proof.
  assert (Hheld :
    AGV.current_load
      (AGV.mk "AGV001" "Picker Bot 1" "storage_a" AGVStatus.IDLE 100 50
              {[ "P999" := 5 ]}) !! "P999"
    = Some 5) by (vm_compute; reflexivity).
  split; [exact Hheld|].
  refine (proj1 (unload_item_capped _ "P999" 5 (Some 8) _ Hheld _)).
  - reflexivity.
  - intros n [= <-]. lia.
Defined.

(** ** Restock priority *)





Example restock_priority_9_of_10 :
  RestockAgent._calculate_restock_priority (stock_item 9 10) = Returned 1.
Proof. vm_compute. reflexivity. Qed.

Example restock_priority_out_of_stock :
  RestockAgent._calculate_restock_priority (stock_item 0 10) = Returned 10.
Proof. vm_compute. reflexivity. Qed.


(** ** Restock planning and execution *)

Lemma plan_restock_reads_only (w : Warehouse.t) (product_id : string) :
  fst (RestockAgent.plan_restock_operation w product_id) = w.
Proof.
  unfold RestockAgent.plan_restock_operation.
  destruct (InventoryManager.get_item _ _) as [item|]; [|reflexivity].
  destruct (InventoryItem.needs_restock item); simpl; [|reflexivity].
  by destruct (AGVManager.get_available_agvs _).
Qed.

(** C8.  [plan_restock_operation] returns the warehouse it was given, ledger
    and fleet registry included; and for an item whose quantity is above its
    [min_threshold] the plan reports [success = True] with
    [restock_needed = False]. *)
Theorem plan_restock_frame (w : Warehouse.t) (product_id : string) :
  fst (RestockAgent.plan_restock_operation w product_id) = w
  /\ (forall item,
        InventoryManager.get_item (Warehouse.inventory_manager w) product_id
        = Some item ->
        InventoryItem.quantity item > InventoryItem.min_threshold item ->
        dict_get "success" (snd (RestockAgent.plan_restock_operation w product_id))
        = Some (VBool true)
        /\ dict_get "restock_needed"
             (snd (RestockAgent.plan_restock_operation w product_id))
           = Some (VBool false)).
Proof.
  split; [apply plan_restock_reads_only|].
  unfold RestockAgent.plan_restock_operation.
  intros item -> Habove.
  unfold InventoryItem.needs_restock.
  rewrite bool_decide_eq_false_2 by lia. simpl. by split.
Qed.

Lemma plan_restock_frame_witness :
  InventoryManager.get_item (Warehouse.inventory_manager demo_warehouse) "P001"
  = Some (InventoryItem.mk "P001" "Smartphone" 50 "storage_a" 10 100)
  /\ dict_get "restock_needed"
       (snd (RestockAgent.plan_restock_operation demo_warehouse "P001"))
     = Some (VBool false).
Proof.
  assert (H : InventoryManager.get_item
                (Warehouse.inventory_manager demo_warehouse) "P001"
              = Some (InventoryItem.mk "P001" "Smartphone" 50 "storage_a" 10 100))
    by (vm_compute; reflexivity).
  split; [exact H|].
  refine (proj2 (proj2 (plan_restock_frame demo_warehouse "P001") _ H _)).
  simpl. lia.
Defined.

(** Planning through the restock agent's [execute_action] is a read as well. *)
Lemma plan_restock_action_frame (w : Warehouse.t) (action : Action.t) :
  Action.action action = Some "plan_restock" ->
  fst (RestockAgent.execute_action w action) = w.
Proof.
  intros Hname. unfold RestockAgent.execute_action. rewrite Hname. simpl.
  destruct (Action.product_id action) as [p|]; [|reflexivity].
  destruct (negb _); [|reflexivity].
  pose proof (plan_restock_reads_only w p) as Hframe.
  destruct (RestockAgent.plan_restock_operation w p) as [w' plan]. exact Hframe.
Qed.

(** The fleet registry as [execute_restock] has it just before its final
    unload: moved to receiving, loaded, moved to the item's location. *)
Lemma before_final_unload :
  cargo
    (Warehouse.set_agvs demo_warehouse
       (fst (AGVManager.move_agv
          (fst (AGVManager.load_agv
             (fst (AGVManager.move_agv (Warehouse.agv_manager demo_warehouse)
                     "AGV003" "receiving"))
             "AGV003" "P001" 60))
          "AGV003" "storage_a")))
    "AGV003"
  = Some {[ "P001" := 60 ]}.
Proof. vm_compute. reflexivity. Qed.

(** C1 fails on the code.  Restocking 60 units of P001 (50 in stock, capacity
    100) with AGV003: the agent is loaded with 60 and unloads them, the
    commit to the ledger is refused, and [execute_restock] reports failure
    without loading the 60 units back: the ledger still holds 50 and the
    agent's [current_load] is empty. *)
Theorem execute_restock_drops_cargo :
  succeeded
    (snd (RestockAgent.execute_restock demo_warehouse "P001" "AGV003" 60))
  = false
  /\ ledger_quantity
       (fst (RestockAgent.execute_restock demo_warehouse "P001" "AGV003" 60))
       "P001"
     = Some 50
  /\ cargo
       (fst (RestockAgent.execute_restock demo_warehouse "P001" "AGV003" 60))
       "AGV003"
     = Some ∅.
Proof. vm_compute. repeat split. Qed.

(** The sibling path does compensate: from the state in which
    [execute_restock] makes its final unload, the planner's [unload_agv]
    meets the same refusal and loads the 60 units back onto the agent. *)
Example unload_agv_reloads :
  cargo
    (fst (AGVPlannerAgent.unload_agv_checked
            (Warehouse.set_agvs demo_warehouse
               (fst (AGVManager.move_agv
                  (fst (AGVManager.load_agv
                     (fst (AGVManager.move_agv
                             (Warehouse.agv_manager demo_warehouse)
                             "AGV003" "receiving"))
                     "AGV003" "P001" 60))
                  "AGV003" "storage_a")))
            "AGV003" "P001" (Some 60)))
    "AGV003"
  = Some {[ "P001" := 60 ]}.
Proof. vm_compute. reflexivity. Qed.

(** C5 fails on the code.  An idle agent holds 5 units of P999, a product
    without a ledger entry.  [unload_agv] takes the units off the agent and
    hands [add_item] a dictionary where it reads [item.product_id]: the call
    raises [AttributeError], no item is created and no result is returned. *)
Theorem unload_agv_new_item_raises :
  cargo stray_cargo_warehouse "AGV001" = Some {[ "P999" := 5 ]}
  /\ ledger_quantity stray_cargo_warehouse "P999" = None
  /\ snd (AGVPlannerAgent.execute_action stray_cargo_warehouse
            unload_stray_cargo)
     = Raised AttributeError
  /\ ledger_quantity
       (fst (AGVPlannerAgent.execute_action stray_cargo_warehouse
               unload_stray_cargo))
       "P999"
     = None
  /\ cargo
       (fst (AGVPlannerAgent.execute_action stray_cargo_warehouse
               unload_stray_cargo))
       "AGV001"
     = Some ∅.
Proof. vm_compute. repeat split. Qed.

(** With an [InventoryItem] object [add_item] does create the entry. *)
Lemma add_item_object im item :
  InventoryManager.add_item im (ItemObject item)
  = (InventoryManager.put im (InventoryItem.product_id item) item, Returned tt).
Proof. reflexivity. Qed.

(** ** Load demand: debit, load, compensate *)

Lemma inventory_put_put im k x y :
  is_Some (InventoryManager.get_item im k) ->
  InventoryManager.put (InventoryManager.put im k x) k y
  = InventoryManager.put im k y.
Proof.
  destruct im as [items keys].
  unfold InventoryManager.get_item, InventoryManager.put; simpl; intros H.
  rewrite insert_insert_eq.
  rewrite !bool_decide_eq_true_2; try done.
  rewrite lookup_insert_eq. eauto.
Qed.

Lemma item_set_quantity_same item :
  InventoryItem.set_quantity item (InventoryItem.quantity item) = item.
Proof. by destruct item. Qed.

Lemma remove_quantity_true im product_id q item :
  InventoryManager.get_item im product_id = Some item ->
  snd (InventoryManager.remove_quantity im product_id q) = true ->
  q <= InventoryItem.quantity item.
Proof.
  intros Hitem. unfold InventoryManager.remove_quantity, InventoryItem.remove.
  rewrite Hitem. case_decide; [discriminate|lia].
Qed.

(** The compensation round trip: on an item within its capacity, adding back
    what a successful debit took is accepted and restores the ledger. *)
Lemma debit_then_readd im product_id q item :
  InventoryManager.get_item im product_id = Some item ->
  InventoryItem.quantity item <= InventoryItem.max_capacity item ->
  snd (InventoryManager.remove_quantity im product_id q) = true ->
  InventoryManager.add_quantity
    (fst (InventoryManager.remove_quantity im product_id q)) product_id q
  = (im, true).
Proof.
  intros Hitem Hcap Hdebit.
  pose proof (remove_quantity_true _ _ _ _ Hitem Hdebit) as Hq.
  unfold InventoryManager.remove_quantity, InventoryItem.remove.
  rewrite Hitem, decide_False by lia. simpl.
  unfold InventoryManager.add_quantity.
  rewrite inventory_get_put, decide_True by done.
  rewrite item_add_cases. simpl. rewrite decide_True by lia.
  rewrite inventory_put_put by (rewrite Hitem; eauto).
  replace (InventoryItem.quantity item - q + q)
    with (InventoryItem.quantity item) by lia.
  unfold InventoryItem.set_quantity at 1; simpl.
  change (InventoryItem.mk _ _ _ _ _ _)
    with (InventoryItem.set_quantity item (InventoryItem.quantity item)).
  by rewrite item_set_quantity_same, inventory_put_same.
Qed.



(** The warehouse's own [pick_item] follows the same protocol and restores
    the ledger under the same condition. *)
Lemma pick_item_compensation (w : Warehouse.t) (action : Action.t)
    (agv_id product_id : string) (agv : AGV.t) (item : InventoryItem.t) :
  Action.agv_id action = Some agv_id ->
  Action.product_id action = Some product_id ->
  AGVManager.get_agv (Warehouse.agv_manager w) agv_id = Some agv ->
  InventoryManager.get_item (Warehouse.inventory_manager w) product_id
  = Some item ->
  InventoryItem.quantity item <= InventoryItem.max_capacity item ->
  snd (InventoryManager.remove_quantity (Warehouse.inventory_manager w)
         product_id (default 1 (Action.quantity action))) = true ->
  snd (AGV.load_item agv product_id (default 1 (Action.quantity action)))
  = false ->
  succeeded (snd (Warehouse.process_pick_item w action)) = false
  /\ Warehouse.inventory_manager (fst (Warehouse.process_pick_item w action))
     = Warehouse.inventory_manager w.
Proof.
  intros Ha Hp Hagv Hitem Hcap Hdebit Hload.
  pose proof (debit_then_readd _ _ _ _ Hitem Hcap Hdebit) as Hback.
  unfold Warehouse.process_pick_item. rewrite Ha, Hp.
  set (q := default 1 (Action.quantity action)) in *.
  destruct (truthy_str (Some agv_id) && truthy_str (Some product_id));
    [|done].
  rewrite Hagv, Hitem.
  destruct (negb _); [done|].
  destruct (InventoryManager.remove_quantity _ product_id q) as [im1 debited].
  simpl in Hdebit, Hback. subst debited.
  unfold AGVManager.load_agv. rewrite Hagv.
  destruct (AGV.load_item agv product_id q) as [agv' loaded].
  simpl in Hload. subst loaded.
  rewrite Hback. by split.
Qed.



(** ** Coordinator *)

Lemma execute_action_cases (c : CoordinatorAgent.t) (action : Action.t) :
  CoordinatorAgent.execute_action c action
  = if negb (truthy_str (Action.type action))
    then (c, Returned (failure (VStr "No action type specified")))
    else
      match CoordinatorAgent.route (CoordinatorAgent.warehouse c) action with
      | (w', Raised e) =>
          (CoordinatorAgent.mk w'
             (CoordinatorAgent.action_history c ++ [ActionEntry action]),
           Raised e)
      | (w', Returned result) =>
          (CoordinatorAgent.mk w'
             (CoordinatorAgent.action_history c
              ++ [ActionEntry action; ResultEntry action result]),
           Returned result)
      end.
Proof.
  unfold CoordinatorAgent.execute_action, CoordinatorAgent._log_result,
    CoordinatorAgent._log_action; simpl.
  destruct (negb _); [reflexivity|].
  destruct (CoordinatorAgent.route _ _) as [w' [result|e]]; simpl;
    [|reflexivity].
  by rewrite <- app_assoc.
Qed.






Lemma execute_plan_from_ok c plan results c' :
  run_ok c plan results c' ->
  forall acc rest,
    CoordinatorAgent.execute_plan_from c acc (plan ++ rest)
    = CoordinatorAgent.execute_plan_from c' (acc ++ results) rest.
Proof.
  induction 1 as [c | c action result c1 plan results c2 Hstep Hok _ IH];
    intros acc rest; simpl.
  - by rewrite app_nil_r.
  - rewrite Hstep, Hok. simpl. rewrite IH. by rewrite <- app_assoc.
Qed.

(** A plan whose actions all succeed is executed to its end. *)
Lemma execute_plan_all_succeed c plan results c' :
  run_ok c plan results c' ->
  CoordinatorAgent.execute_plan c plan = (c', Returned results).
Proof.
  intros Hrun. unfold CoordinatorAgent.execute_plan.
  rewrite <- (app_nil_r plan). by rewrite (execute_plan_from_ok _ _ _ _ Hrun).
Qed.

(** C7.  If the actions of [pre] run in order, each returning a result that
    reports success, and the next action [a] returns a result that reports
    failure, then [execute_plan] on [pre ++ a :: post] returns exactly the
    results of [pre] followed by that of [a], and ends in the coordinator
    state reached right after [a]: the effects of [pre] are kept and no
    action of [post] is run. *)
Theorem execute_plan_short_circuit (c c1 c2 : CoordinatorAgent.t)
    (pre post : list Action.t) (a : Action.t)
    (results : list pydict) (result : pydict) :
  run_ok c pre results c1 ->
  CoordinatorAgent.execute_action c1 a = (c2, Returned result) ->
  succeeded result = false ->
  CoordinatorAgent.execute_plan c (pre ++ a :: post)
  = (c2, Returned (results ++ [result])).
Proof.
  intros Hrun Hstep Hfail. unfold CoordinatorAgent.execute_plan.
  rewrite (execute_plan_from_ok _ _ _ _ Hrun). simpl.
  by rewrite Hstep, Hfail.
Qed.

Lemma execute_plan_short_circuit_witness :
  succeeded
    (returned_result
       (snd (CoordinatorAgent.execute_action demo_coordinator
               move_to_storage_a)))
  = true
  /\ succeeded
       (returned_result
          (snd (CoordinatorAgent.execute_action
                  (fst (CoordinatorAgent.execute_action demo_coordinator
                          move_to_storage_a))
                  load_unknown_product)))
     = false
  /\ CoordinatorAgent.execute_plan demo_coordinator
       ([move_to_storage_a] ++ load_unknown_product :: [charge_agv001])
     = (fst (CoordinatorAgent.execute_action
               (fst (CoordinatorAgent.execute_action demo_coordinator
                       move_to_storage_a))
               load_unknown_product),
        Returned
          ([ returned_result
               (snd (CoordinatorAgent.execute_action demo_coordinator
                       move_to_storage_a)) ]
           ++ [ returned_result
                  (snd (CoordinatorAgent.execute_action
                          (fst (CoordinatorAgent.execute_action
                                  demo_coordinator move_to_storage_a))
                          load_unknown_product)) ])).
Proof.
  split; [vm_compute; reflexivity|]. split; [vm_compute; reflexivity|].
  apply (execute_plan_short_circuit demo_coordinator
           (fst (CoordinatorAgent.execute_action demo_coordinator
                   move_to_storage_a))).
  - eapply run_ok_cons; [vm_compute; reflexivity|vm_compute; reflexivity|].
    apply run_ok_nil.
  - vm_compute; reflexivity.
  - vm_compute; reflexivity.
Defined.

(** The scenario of the specification: of a succeeding, a failing and a
    succeeding action, two results come back and the journal holds the four
    entries of the first two actions. *)
Example short_circuit_scenario :
  (succeeded <$>
     match snd (CoordinatorAgent.execute_plan demo_coordinator
                  short_circuit_plan) with
     | Returned results => results
     | Raised _ => []
     end)
  = [true; false]
  /\ CoordinatorAgent.action_history
       (fst (CoordinatorAgent.execute_plan demo_coordinator short_circuit_plan))
     = [ ActionEntry move_to_storage_a;
         ResultEntry move_to_storage_a
           (snd (AGVPlannerAgent.move_agv demo_warehouse move_to_storage_a));
         ActionEntry load_unknown_product;
         ResultEntry load_unknown_product
           (failure (VFmt [FLit "Product "; FStr "P404"; FLit " not found"])) ]
  /\ succeeded
       (returned_result
          (snd (CoordinatorAgent.execute_action
                  (fst (CoordinatorAgent.execute_plan demo_coordinator
                          short_circuit_plan))
                  charge_agv001)))
     = true.
Proof. vm_compute. repeat split. Qed.

(* ================================================================== *)
(** * Further properties *)

(* ================================================================== *)
(** * Further properties of the ledgers and the fleet *)

(** ** [InventoryManager.update_quantity] *)

(** X1.  [update_quantity] succeeds exactly when the product exists and the
    new quantity lies between 0 and the item's [max_capacity]; on success
    the item holds exactly the new quantity and every other product is as it
    was; on failure the ledger is unchanged; and a ledger whose items are
    within their bounds stays so. *)
Theorem update_quantity_bounds (im : InventoryManager.t) (p : string) (n : Z) :
  ledger_ok im ->
  (snd (InventoryManager.update_quantity im p n) = true <->
   exists item, InventoryManager.get_item im p = Some item
                /\ 0 <= n <= InventoryItem.max_capacity item)
  /\ (snd (InventoryManager.update_quantity im p n) = true ->
      InventoryItem.quantity <$>
        InventoryManager.get_item (fst (InventoryManager.update_quantity im p n)) p
      = Some n)
  /\ (forall p', p' <> p ->
        InventoryManager.get_item (fst (InventoryManager.update_quantity im p n)) p'
        = InventoryManager.get_item im p')
  /\ (snd (InventoryManager.update_quantity im p n) = false ->
      fst (InventoryManager.update_quantity im p n) = im)
  /\ ledger_ok (fst (InventoryManager.update_quantity im p n)).
Proof.
  intros Hok. unfold InventoryManager.update_quantity.
  assert (Hrefused : forall o : option InventoryItem.t,
            (forall item, o = Some item ->
                          ~ 0 <= n <= InventoryItem.max_capacity item) ->
            (false = true <->
             exists item, o = Some item
                          /\ 0 <= n <= InventoryItem.max_capacity item)).
  { intros o Hno. split; [discriminate|].
    intros (item & Heq & Hn). by destruct (Hno item Heq). }
  destruct (InventoryManager.get_item im p) as [item|] eqn:Hget; simpl.
  - destruct (decide (n < 0)) as [Hneg|Hneg]; simpl;
      [|destruct (decide (n > InventoryItem.max_capacity item)) as [Hbig|Hbig];
        simpl].
    + split; [apply Hrefused; intros ? [= <-]; lia|done].
    + split; [apply Hrefused; intros ? [= <-]; lia|done].
    + split; [|split; [|split; [|split]]].
      * split; [|done]. intros _. exists item. split; [done|lia].
      * intros _. by rewrite inventory_get_put, decide_True.
      * intros p' Hne. by rewrite inventory_get_put, decide_False.
      * discriminate.
      * intros p' item'. rewrite inventory_get_put.
        case_decide; [|apply Hok]. intros [= <-]. unfold item_ok; simpl. lia.
  - split; [apply Hrefused; intros ? [=]|done].
Qed.

Lemma update_quantity_bounds_witness :
  ledger_ok (Warehouse.inventory_manager demo_warehouse)
  /\ snd (InventoryManager.update_quantity
            (Warehouse.inventory_manager demo_warehouse) "P001" 101) = false
  /\ fst (InventoryManager.update_quantity
            (Warehouse.inventory_manager demo_warehouse) "P001" 101)
     = Warehouse.inventory_manager demo_warehouse.
Proof.
  split; [exact demo_ledger_ok|].
  assert (H : snd (InventoryManager.update_quantity
                     (Warehouse.inventory_manager demo_warehouse) "P001" 101)
              = false) by (vm_compute; reflexivity).
  split; [exact H|].
  exact (proj1 (proj2 (proj2 (proj2
    (update_quantity_bounds (Warehouse.inventory_manager demo_warehouse)
       "P001" 101 demo_ledger_ok)))) H).
Defined.

(** ** Agent transitions *)

Lemma max0_range (x : Q) : (x <= 100)%Q -> (0 <= max0 x <= 100)%Q.
Proof. unfold max0. intros H. destruct (Qlt_le_dec 0 x); lra. Qed.

Lemma load_item_status self p q :
  AGV.status (fst (AGV.load_item self p q)) = AGV.status self.
Proof.
  unfold AGV.load_item. case_decide as Hs; [done|].
  destruct (int_gt_float _ _); simpl; [done|].
  symmetry. by destruct (decide (AGV.status self = AGVStatus.IDLE)).
Qed.

Lemma unload_item_status self p q :
  AGV.status (fst (AGV.unload_item self p q)) = AGV.status self.
Proof.
  unfold AGV.unload_item. case_decide as Hs; [done|].
  assert (AGV.status self = AGVStatus.IDLE) as ->
    by (by destruct (decide (AGV.status self = AGVStatus.IDLE))).
  destruct (AGV.current_load self !! p) as [h|]; [|done].
  by destruct q as [n|]; [destruct (decide (n >= h))|].
Qed.

(** X2.  Starting from a battery level between 0 and 100, every agent
    transition leaves it between 0 and 100 ([charge] for a non-negative
    amount); [move_to] and [charge] end in [IDLE], and [load_item] and
    [unload_item] leave the status they found: no transient status
    survives a call. *)
Theorem agv_transitions_keep_battery (self : AGV.t) (loc p : string)
    (n : Z) (q : option Z) (amount : Q) :
  battery_ok self ->
  (battery_ok (AGV.move_to self loc)
   /\ AGV.status (AGV.move_to self loc) = AGVStatus.IDLE)
  /\ (battery_ok (fst (AGV.load_item self p n))
      /\ AGV.status (fst (AGV.load_item self p n)) = AGV.status self)
  /\ (battery_ok (fst (AGV.unload_item self p q))
      /\ AGV.status (fst (AGV.unload_item self p q)) = AGV.status self)
  /\ ((0 <= amount)%Q ->
      battery_ok (AGV.charge self amount)
      /\ AGV.status (AGV.charge self amount) = AGVStatus.IDLE).
Proof.
  unfold battery_ok. intros Hb. repeat split;
    try apply load_item_status; try apply unload_item_status.
  - apply max0_range. simpl. lra.
  - apply max0_range. simpl. lra.
  - unfold AGV.load_item. case_decide; [tauto|].
    destruct (int_gt_float _ _); simpl; [tauto|]. apply max0_range; lra.
  - unfold AGV.load_item. case_decide; [tauto|].
    destruct (int_gt_float _ _); simpl; [tauto|]. apply max0_range; lra.
  - unfold AGV.unload_item. case_decide; [tauto|].
    destruct (AGV.current_load self !! p) as [h|]; [|tauto].
    destruct q as [m|]; [destruct (decide (m >= h))|]; simpl;
      apply max0_range; lra.
  - unfold AGV.unload_item. case_decide; [tauto|].
    destruct (AGV.current_load self !! p) as [h|]; [|tauto].
    destruct q as [m|]; [destruct (decide (m >= h))|]; simpl;
      apply max0_range; lra.
  - simpl. unfold min100. destruct (Qlt_le_dec _ _); lra.
  - simpl. unfold min100. destruct (Qlt_le_dec _ _); lra.
Qed.

Lemma agv_transitions_keep_battery_witness :
  battery_ok (AGV.mk "AGV002" "Picker Bot 2" "storage_a" AGVStatus.IDLE 3 50 ∅)
  /\ battery_ok
       (AGV.move_to
          (AGV.mk "AGV002" "Picker Bot 2" "storage_a" AGVStatus.IDLE 3 50 ∅)
          "receiving")
  /\ AGV.battery_level
       (AGV.move_to
          (AGV.mk "AGV002" "Picker Bot 2" "storage_a" AGVStatus.IDLE 3 50 ∅)
          "receiving")
     = 0%Q.
Proof.
  assert (H : battery_ok
                (AGV.mk "AGV002" "Picker Bot 2" "storage_a" AGVStatus.IDLE
                        3 50 ∅))
    by (unfold battery_ok; simpl; lra).
  split; [exact H|]. split; [|vm_compute; reflexivity].
  exact (proj1 (proj1
    (agv_transitions_keep_battery _ "receiving" "P001" 1 None 0 H))).
Defined.

(** X3.  Whatever is asked of it, [unload_item] takes from the sum of the
    agent's load exactly the quantity it returns, and never touches the line
    of another product. *)
Theorem unload_item_conserves (self : AGV.t) (p : string) (q : option Z) :
  sum_values (AGV.current_load (fst (AGV.unload_item self p q)))
  = sum_values (AGV.current_load self) - snd (snd (AGV.unload_item self p q))
  /\ fst (snd (AGV.unload_item self p q)) = p
  /\ forall p', p' <> p ->
       AGV.current_load (fst (AGV.unload_item self p q)) !! p'
       = AGV.current_load self !! p'.
Proof.
  assert (Hdel : forall (m : gmap string Z) h, m !! p = Some h ->
            sum_values (delete p m) = sum_values m - h).
  { intros m h Hm. rewrite <- (insert_id m p h) at 2 by done.
    rewrite <- insert_delete_eq, sum_values_insert, lookup_delete_eq.
    simpl. lia. }
  unfold AGV.unload_item. case_decide; simpl; [split; [lia|done]|].
  destruct (AGV.current_load self !! p) as [h|] eqn:Hh; simpl;
    [|split; [lia|done]].
  destruct q as [n|]; [destruct (decide (n >= h))|]; simpl.
  - split; [by apply Hdel|]. split; [done|].
    intros p' Hne. by rewrite lookup_delete_ne.
  - rewrite decide_False by lia. rewrite sum_values_insert, Hh. simpl.
    split; [lia|]. split; [done|].
    intros p' Hne. by rewrite lookup_insert_ne.
  - split; [by apply Hdel|]. split; [done|].
    intros p' Hne. by rewrite lookup_delete_ne.
Qed.

Lemma load_item_effect (self self' : AGV.t) (p : string) (n : Z) :
  AGV.load_item self p n = (self', true) ->
  held self' p = held self p + n
  /\ sum_values (AGV.current_load self')
     = sum_values (AGV.current_load self) + n
  /\ forall p', p' <> p ->
       AGV.current_load self' !! p' = AGV.current_load self !! p'.
Proof.
  unfold AGV.load_item, held. case_decide; [discriminate|].
  destruct (int_gt_float _ _); [discriminate|].
  intros [= <-]; simpl.
  destruct (AGV.current_load self !! p) as [h|] eqn:Hh; simpl;
    rewrite sum_values_insert, lookup_insert_eq, Hh; simpl;
    (split; [lia|]); (split; [lia|]);
    intros p' Hne; by rewrite lookup_insert_ne.
Qed.


(** X4.  A successful [load_item] adds the quantity to the line of the
    product (creating it if absent), raises the sum of the load by exactly
    that quantity and leaves every other line as it was. *)
Theorem load_item_adds (self self' : AGV.t) (p : string) (n : Z) :
  AGV.load_item self p n = (self', true) ->
  held self' p = held self p + n
  /\ sum_values (AGV.current_load self')
     = sum_values (AGV.current_load self) + n
  /\ forall p', p' <> p ->
       AGV.current_load self' !! p' = AGV.current_load self !! p'.
Proof. apply load_item_effect. Qed.

Lemma load_item_adds_witness :
  AGV.load_item
    (AGV.mk "AGV001" "Picker Bot 1" "storage_a" AGVStatus.IDLE 100 50
            {[ "P001" := 5 ]})
    "P001" 7
  = (AGV.mk "AGV001" "Picker Bot 1" "storage_a" AGVStatus.IDLE 98 50
            {[ "P001" := 12 ]}, true)
  /\ held (AGV.mk "AGV001" "Picker Bot 1" "storage_a" AGVStatus.IDLE 98 50
                  {[ "P001" := 12 ]}) "P001"
     = held (AGV.mk "AGV001" "Picker Bot 1" "storage_a" AGVStatus.IDLE 100 50
                    {[ "P001" := 5 ]}) "P001" + 7.
Proof.
  assert (H : AGV.load_item
                (AGV.mk "AGV001" "Picker Bot 1" "storage_a" AGVStatus.IDLE
                        100 50 {[ "P001" := 5 ]})
                "P001" 7
              = (AGV.mk "AGV001" "Picker Bot 1" "storage_a" AGVStatus.IDLE
                        98 50 {[ "P001" := 12 ]}, true))
    by (vm_compute; reflexivity).
  split; [exact H|].
  exact (proj1 (load_item_adds _ _ "P001" 7 H)).
Defined.

(** X5.  Load then unload is a round trip on the cargo: after a successful
    [load_item] of a positive quantity onto an agent whose lines are all
    positive, [unload_item] of the same quantity returns it in full and
    leaves [current_load] exactly as it was before the load. *)
Theorem load_unload_round_trip (self self' : AGV.t) (p : string) (n : Z) :
  load_positive self ->
  0 < n ->
  AGV.load_item self p n = (self', true) ->
  snd (AGV.unload_item self' p (Some n)) = (p, n)
  /\ AGV.current_load (fst (AGV.unload_item self' p (Some n)))
     = AGV.current_load self.
Proof.
  intros Hpos Hn. unfold AGV.load_item. case_decide as Hs; [discriminate|].
  destruct (int_gt_float _ _); [discriminate|].
  intros [= <-]. unfold AGV.unload_item; simpl.
  destruct (AGV.current_load self !! p) as [h|] eqn:Hh.
  - rewrite lookup_insert_eq. pose proof (Hpos p h Hh).
    rewrite decide_False by lia. rewrite decide_False by lia. simpl.
    split; [done|]. rewrite insert_insert_eq.
    replace (h + n - n) with h by lia. by apply insert_id.
  - rewrite lookup_insert_eq. rewrite decide_True by lia. simpl.
    split; [done|]. by rewrite delete_insert_eq, delete_id.
Qed.

Lemma load_unload_round_trip_witness :
  AGV.load_item
    (AGV.mk "AGV001" "Picker Bot 1" "storage_a" AGVStatus.IDLE 100 50
            {[ "P001" := 5 ]})
    "P001" 7
  = (AGV.mk "AGV001" "Picker Bot 1" "storage_a" AGVStatus.IDLE 98 50
            {[ "P001" := 12 ]}, true)
  /\ snd (AGV.unload_item
            (AGV.mk "AGV001" "Picker Bot 1" "storage_a" AGVStatus.IDLE 98 50
                    {[ "P001" := 12 ]})
            "P001" (Some 7))
     = ("P001", 7).
Proof.
  assert (H : AGV.load_item
                (AGV.mk "AGV001" "Picker Bot 1" "storage_a" AGVStatus.IDLE
                        100 50 {[ "P001" := 5 ]})
                "P001" 7
              = (AGV.mk "AGV001" "Picker Bot 1" "storage_a" AGVStatus.IDLE
                        98 50 {[ "P001" := 12 ]}, true))
    by (vm_compute; reflexivity).
  split; [exact H|].
  refine (proj1 (load_unload_round_trip _ _ "P001" 7 _ _ H)); [|lia].
  intros p n. simpl. intros Hl.
  apply lookup_singleton_Some in Hl as [_ <-]. lia.
Defined.

(** X6.  [get_available_agvs] returns exactly the registered agents that are
    idle, charged above 20 and empty. *)
Theorem available_agvs_exactly (am : AGVManager.t) (agv : AGV.t) :
  agv ∈ AGVManager.get_available_agvs am <->
  (exists k, k ∈ AGVManager.agv_keys am /\ AGVManager.agvs am !! k = Some agv)
  /\ AGV.status agv = AGVStatus.IDLE
  /\ (20 < AGV.battery_level agv)%Q
  /\ AGV.current_load agv = ∅.
Proof.
  unfold AGVManager.get_available_agvs, AGVManager.get_all_agvs.
  rewrite list_elem_of_filter, list_elem_of_omap.
  unfold AGV.is_available.
  rewrite !andb_true_iff, !bool_decide_eq_true.
  destruct (Qlt_le_dec 20 (AGV.battery_level agv)) as [Hb|Hb].
  - tauto.
  - split; [intros [[[_ [=]] _] _]|].
    intros (_ & _ & Hlt & _). exfalso. by apply (Qlt_not_le _ _ Hlt).
Qed.

(** ** Restock report *)

(** X7.  Whenever [_calculate_restock_priority] returns, the priority lies
    between 1 and 10 and is 10 exactly for an item that is out of stock; for
    an item in stock whose [min_threshold] is 0 it raises
    [ZeroDivisionError]. *)
Theorem restock_priority_range (item : InventoryItem.t) :
  (forall n, RestockAgent._calculate_restock_priority item = Returned n ->
             1 <= n <= 10 /\ (n = 10 <-> InventoryItem.quantity item = 0))
  /\ (InventoryItem.quantity item <> 0 ->
      InventoryItem.min_threshold item = 0 ->
      RestockAgent._calculate_restock_priority item = Raised ZeroDivisionError).
Proof.
  unfold RestockAgent._calculate_restock_priority. split.
  - intros n. case_decide as Hq.
    + intros [= <-]. split; [lia|done].
    + destruct (Float64.truediv _ _) as [x|e]; [|discriminate].
      destruct (Float64.to_int _) as [m|e]; [|discriminate].
      intros [= <-]. split; lia.
  - intros Hq Ht. rewrite decide_False by done.
    unfold Float64.truediv. by rewrite decide_True.
Qed.

Lemma restock_priority_range_witness :
  RestockAgent._calculate_restock_priority (stock_item 4 0)
  = Raised ZeroDivisionError
  /\ 1 <= 7 <= 10.
Proof.
  split.
  - refine (proj2 (restock_priority_range (stock_item 4 0)) _ _);
      simpl; [lia|reflexivity].
  - refine (proj1 (proj1 (restock_priority_range (stock_item 3 10)) 7 _)).
    vm_compute. reflexivity.
Defined.

Lemma insert_desc_perm x l : RestockAgent.insert_desc x l ≡ₚ x :: l.
Proof.
  induction l as [|y l IH]; simpl; [done|].
  case_decide; [done|]. rewrite IH. apply Permutation_swap.
Qed.

Lemma insert_desc_sorted x l :
  Sorted (fun a b : Z * pydict => fst b <= fst a) l ->
  Sorted (fun a b : Z * pydict => fst b <= fst a) (RestockAgent.insert_desc x l).
Proof.
  induction l as [|y l IH]; simpl; intros Hs.
  - by repeat constructor.
  - case_decide as Hle.
    + constructor; [done|]. by constructor.
    + apply Sorted_inv in Hs as [Hs Hhd].
      constructor; [by apply IH|].
      destruct l as [|z l]; simpl.
      * constructor. lia.
      * case_decide; constructor; [lia|]. by apply HdRel_inv in Hhd.
Qed.

Lemma insert_desc_filter (k : Z) x l :
  filter (fun e : Z * pydict => fst e = k) (RestockAgent.insert_desc x l)
  = filter (fun e : Z * pydict => fst e = k) (x :: l).
Proof.
  induction l as [|y l IH]; simpl; [done|].
  case_decide as Hle; [done|].
  rewrite !filter_cons in *. rewrite IH.
  repeat case_decide; try done; lia.
Qed.

Lemma sort_desc_perm (l : list (Z * pydict)) : RestockAgent.sort_desc l ≡ₚ l.
Proof.
  unfold RestockAgent.sort_desc. induction l as [|x l IH]; simpl; [done|].
  by rewrite insert_desc_perm, IH.
Qed.

Lemma sort_desc_sorted (l : list (Z * pydict)) :
  Sorted (fun a b : Z * pydict => fst b <= fst a) (RestockAgent.sort_desc l).
Proof.
  unfold RestockAgent.sort_desc. induction l as [|x l IH]; simpl.
  - constructor.
  - by apply insert_desc_sorted.
Qed.

(** X8.  The sort of the restock report is a stable descending sort: its
    output is a permutation of its input, priorities never increase along
    it, and entries of equal priority keep the order they came in. *)
Theorem sort_desc_stable (l : list (Z * pydict)) :
  RestockAgent.sort_desc l ≡ₚ l
  /\ Sorted (fun a b : Z * pydict => fst b <= fst a) (RestockAgent.sort_desc l)
  /\ forall k,
       filter (fun e : Z * pydict => fst e = k) (RestockAgent.sort_desc l)
       = filter (fun e : Z * pydict => fst e = k) l.
Proof.
  split; [apply sort_desc_perm|]. split; [apply sort_desc_sorted|].
  unfold RestockAgent.sort_desc. intros k.
  induction l as [|x l IH]; simpl; [done|].
  by rewrite insert_desc_filter, !filter_cons, IH.
Qed.





(** ** Restock planning and execution, end to end *)

Lemma fleet_put_put am k x y :
  AGVManager.put (AGVManager.put am k x) k y = AGVManager.put am k y.
Proof.
  destruct am as [agvs keys]. unfold AGVManager.put; simpl.
  rewrite insert_insert_eq. f_equal.
  rewrite (bool_decide_eq_true_2 (is_Some (<[k:=x]> agvs !! k)))
    by (rewrite lookup_insert_eq; eauto).
  done.
Qed.

Lemma is_available_true agv :
  AGV.is_available agv = true <->
  AGV.status agv = AGVStatus.IDLE
  /\ (20 < AGV.battery_level agv)%Q
  /\ AGV.current_load agv = ∅.
Proof.
  unfold AGV.is_available.
  rewrite !andb_true_iff, !bool_decide_eq_true.
  destruct (Qlt_le_dec 20 (AGV.battery_level agv)) as [Hb|Hb]; [tauto|].
  split; [intros [[_ [=]] _]|].
  intros (_ & Hlt & _). exfalso. by apply (Qlt_not_le _ _ Hlt).
Qed.

Lemma first_available am a rest :
  AGVManager.get_available_agvs am = a :: rest -> AGV.is_available a = true.
Proof.
  intros H. assert (Hin : a ∈ AGVManager.get_available_agvs am)
    by (rewrite H; left).
  unfold AGVManager.get_available_agvs in Hin.
  by apply list_elem_of_filter in Hin as [? _].
Qed.

(** The state [execute_restock] reaches when every step goes through. *)
Lemma execute_restock_run (w : Warehouse.t) (p a : string) (amount : Z)
    (item : InventoryItem.t) (agv : AGV.t) :
  InventoryManager.get_item (Warehouse.inventory_manager w) p = Some item ->
  AGVManager.get_agv (Warehouse.agv_manager w) a = Some agv ->
  AGV.status agv = AGVStatus.IDLE ->
  AGV.current_load agv !! p = None ->
  0 < amount ->
  (inject_Z (sum_values (AGV.current_load agv) + amount)
   <= AGV.max_capacity agv)%Q ->
  InventoryItem.quantity item + amount <= InventoryItem.max_capacity item ->
  exists agv',
    RestockAgent.execute_restock w p a amount
    = (Warehouse.mk
         (InventoryManager.put (Warehouse.inventory_manager w) p
            (InventoryItem.set_quantity item
               (InventoryItem.quantity item + amount)))
         (AGVManager.put (Warehouse.agv_manager w) a agv')
         (Warehouse.order_manager w) (Warehouse.stats w),
       [ ("success", VBool true);
         ("product_id", VStr p);
         ("restocked_quantity", VInt amount);
         ("new_quantity", VInt (InventoryItem.quantity item + amount));
         ("agv_id", VStr a) ])
    /\ AGV.location agv' = InventoryItem.location item
    /\ AGV.status agv' = AGVStatus.IDLE
    /\ AGV.current_load agv' = AGV.current_load agv.
Proof.
  intros Hitem Hagv Hidle Hfree Hamt Hcap Hroom.
  unfold RestockAgent.execute_restock. rewrite Hitem, Hagv.
  rewrite decide_False by (rewrite Hidle; tauto).
  unfold AGVManager.move_agv at 1. rewrite Hagv. simpl.
  unfold AGVManager.load_agv. rewrite fleet_get_put, decide_True by done.
  unfold AGV.load_item. simpl.
  apply int_gt_float_false in Hcap. rewrite Hcap. rewrite Hfree. simpl.
  unfold AGVManager.move_agv. rewrite fleet_get_put, decide_True by done.
  simpl. unfold AGVManager.unload_agv.
  rewrite fleet_get_put, decide_True by done.
  unfold AGV.unload_item. simpl. rewrite lookup_insert_eq.
  rewrite decide_True by lia. simpl. rewrite decide_True by lia.
  unfold InventoryManager.add_quantity. rewrite Hitem, item_add_cases.
  rewrite decide_True by lia. simpl.
  rewrite inventory_get_put, decide_True by done. simpl.
  rewrite !fleet_put_put. eexists. split; [reflexivity|]. simpl.
  repeat split. by rewrite delete_insert_eq, delete_id.
Qed.

(** X10.  The full restock cycle.  For an existing item and an idle agent
    that does not carry the product, a positive amount that fits both the
    agent's free capacity and the item's free capacity is restocked in full:
    [execute_restock] reports success, the ledger quantity of the product
    rises by the amount and no other product changes, and the agent ends
    idle at the item's location with the cargo it started with. *)
Theorem execute_restock_full_cycle (w : Warehouse.t) (p a : string)
    (amount : Z) (item : InventoryItem.t) (agv : AGV.t) :
  InventoryManager.get_item (Warehouse.inventory_manager w) p = Some item ->
  AGVManager.get_agv (Warehouse.agv_manager w) a = Some agv ->
  AGV.status agv = AGVStatus.IDLE ->
  AGV.current_load agv !! p = None ->
  0 < amount ->
  (inject_Z (sum_values (AGV.current_load agv) + amount)
   <= AGV.max_capacity agv)%Q ->
  InventoryItem.quantity item + amount <= InventoryItem.max_capacity item ->
  succeeded (snd (RestockAgent.execute_restock w p a amount)) = true
  /\ ledger_quantity (fst (RestockAgent.execute_restock w p a amount)) p
     = Some (InventoryItem.quantity item + amount)
  /\ (forall p', p' <> p ->
        ledger_quantity (fst (RestockAgent.execute_restock w p a amount)) p'
        = ledger_quantity w p')
  /\ exists agv',
       AGVManager.get_agv
         (Warehouse.agv_manager (fst (RestockAgent.execute_restock w p a amount)))
         a = Some agv'
       /\ AGV.location agv' = InventoryItem.location item
       /\ AGV.status agv' = AGVStatus.IDLE
       /\ AGV.current_load agv' = AGV.current_load agv.
Proof.
  intros Hitem Hagv Hidle Hfree Hamt Hcap Hroom.
  destruct (execute_restock_run w p a amount item agv)
    as (agv' & -> & Hloc & Hst & Hload); try done.
  unfold ledger_quantity; simpl. split; [done|].
  split; [by rewrite inventory_get_put, decide_True|].
  split; [intros p' Hne; by rewrite inventory_get_put, decide_False|].
  exists agv'. by rewrite fleet_get_put, decide_True.
Qed.

(** X11.  What a restock plan chooses.  For an item at or below its
    threshold, [plan_restock_operation] succeeds exactly when some agent is
    available; it then names the first available agent, which is idle,
    charged above 20 and empty, and plans to restock
    [max_capacity - quantity]. *)
Theorem plan_restock_selects (w : Warehouse.t) (p : string)
    (item : InventoryItem.t) :
  InventoryManager.get_item (Warehouse.inventory_manager w) p = Some item ->
  InventoryItem.quantity item <= InventoryItem.min_threshold item ->
  (succeeded (snd (RestockAgent.plan_restock_operation w p)) = true <->
   AGVManager.get_available_agvs (Warehouse.agv_manager w) <> [])
  /\ forall agv rest,
       AGVManager.get_available_agvs (Warehouse.agv_manager w) = agv :: rest ->
       dict_get "agv_id" (snd (RestockAgent.plan_restock_operation w p))
       = Some (VStr (AGV.agv_id agv))
       /\ dict_get "restock_amount"
            (snd (RestockAgent.plan_restock_operation w p))
          = Some (VInt (InventoryItem.max_capacity item
                        - InventoryItem.quantity item))
       /\ AGV.status agv = AGVStatus.IDLE
       /\ (20 < AGV.battery_level agv)%Q
       /\ AGV.current_load agv = ∅.
Proof.
  intros Hitem Hlow. unfold RestockAgent.plan_restock_operation.
  rewrite Hitem. unfold InventoryItem.needs_restock.
  rewrite bool_decide_eq_true_2 by done. simpl.
  destruct (AGVManager.get_available_agvs _) as [|agv0 rest0] eqn:Hav; simpl.
  - split; [split; [discriminate|done]|]. intros ? ? [=].
  - split; [done|]. intros agv rest [= <- <-].
    repeat split; by apply is_available_true, (first_available _ _ _ Hav).
Qed.


(** X13.  The preconditions of [execute_restock] fail fast: if the product is
    unknown, or the agent is unknown, or the agent is not idle, the call
    reports failure and the warehouse is exactly as it was. *)
Theorem execute_restock_fast_fail (w : Warehouse.t) (p a : string) (amount : Z) :
  InventoryManager.get_item (Warehouse.inventory_manager w) p = None
  \/ AGVManager.get_agv (Warehouse.agv_manager w) a = None
  \/ (exists agv, AGVManager.get_agv (Warehouse.agv_manager w) a = Some agv
                  /\ AGV.status agv <> AGVStatus.IDLE) ->
  fst (RestockAgent.execute_restock w p a amount) = w
  /\ succeeded (snd (RestockAgent.execute_restock w p a amount)) = false.
Proof.
  unfold RestockAgent.execute_restock.
  intros [Hitem | [Hagv | (agv & Hagv & Hbusy)]].
  - by rewrite Hitem.
  - rewrite Hagv. by destruct (InventoryManager.get_item _ _).
  - rewrite Hagv. destruct (InventoryManager.get_item _ _); [|done].
    by rewrite decide_True.
Qed.

(** X14.  A refused load is not compensated.  If the item exists and the
    agent is idle but cannot take the amount, [execute_restock] reports
    failure with the ledger and the agent's cargo untouched, yet the agent
    has already been sent to receiving and has paid for the move. *)
Theorem execute_restock_refused_load (w : Warehouse.t) (p a : string)
    (amount : Z) (item : InventoryItem.t) (agv : AGV.t) :
  InventoryManager.get_item (Warehouse.inventory_manager w) p = Some item ->
  AGVManager.get_agv (Warehouse.agv_manager w) a = Some agv ->
  AGV.status agv = AGVStatus.IDLE ->
  (AGV.max_capacity agv
   < inject_Z (sum_values (AGV.current_load agv) + amount))%Q ->
  succeeded (snd (RestockAgent.execute_restock w p a amount)) = false
  /\ Warehouse.inventory_manager (fst (RestockAgent.execute_restock w p a amount))
     = Warehouse.inventory_manager w
  /\ AGVManager.get_agv
       (Warehouse.agv_manager (fst (RestockAgent.execute_restock w p a amount)))
       a
     = Some (AGV.move_to agv "receiving")
  /\ AGV.location (AGV.move_to agv "receiving") = "receiving"
  /\ AGV.current_load (AGV.move_to agv "receiving") = AGV.current_load agv.
Proof.
  intros Hitem Hagv Hidle Hcap.
  assert (Hrun : exists result,
    RestockAgent.execute_restock w p a amount
    = (Warehouse.set_agvs w
         (AGVManager.put (Warehouse.agv_manager w) a
            (AGV.move_to agv "receiving")), result)
    /\ succeeded result = false).
  { unfold RestockAgent.execute_restock. rewrite Hitem, Hagv.
    rewrite decide_False by (rewrite Hidle; tauto).
    unfold AGVManager.move_agv at 1. rewrite Hagv. simpl.
    unfold AGVManager.load_agv. rewrite fleet_get_put, decide_True by done.
    unfold AGV.load_item. simpl.
    apply int_gt_float_true in Hcap. rewrite Hcap. simpl.
    rewrite fleet_put_put. eexists. by split. }
  destruct Hrun as (result & -> & Hfail). simpl.
  repeat split; [done|]. by rewrite fleet_get_put, decide_True.
Qed.

(** ** Units are conserved between the ledger and an agent *)







(** ** Coordinator: dispatch, plans and the journal *)

Lemma eqb_false_of_ne (s t : string) : s <> t -> String.eqb s t = false.
Proof. intros H. by apply String.eqb_neq. Qed.

(** X17.  A request with an unknown dispatch key is answered, not raised:
    if the agent is none of the four the coordinator knows, or the agent is
    known but does not handle the request's key, [route] returns a failure
    result and the warehouse is exactly as it was. *)
Theorem unknown_request_rejected (w : Warehouse.t) (action : Action.t) :
  (forall agent, Action.agent action = Some agent ->
     agent ∈ known_agents ->
     forall key, dispatch_key agent action = Some key ->
                 key ∉ handled_keys agent) ->
  exists result,
    CoordinatorAgent.route w action = (w, Returned result)
    /\ succeeded result = false.
Proof.
  intros Hunknown. unfold CoordinatorAgent.route.
  destruct (Action.agent action) as [ag|]; [|by eexists].
  specialize (Hunknown ag eq_refl).
  unfold known_agents, handled_keys, dispatch_key in Hunknown.
  destruct (String.eqb ag "inventory") eqn:Hinv.
  { apply String.eqb_eq in Hinv. subst ag. specialize (Hunknown ltac:(set_solver)). simpl in Hunknown.
    unfold InventoryManagerAgent.execute_action.
    destruct (Action.action action) as [key|]; [|by eexists].
    specialize (Hunknown key eq_refl).
    rewrite !eqb_false_of_ne by (intros ->; set_solver). by eexists. }
  destruct (String.eqb ag "agv") eqn:Hagv.
  { apply String.eqb_eq in Hagv. subst ag. specialize (Hunknown ltac:(set_solver)). simpl in Hunknown.
    unfold AGVPlannerAgent.execute_action.
    destruct (Action.action action) as [key|]; [|by eexists].
    specialize (Hunknown key eq_refl).
    rewrite !eqb_false_of_ne by (intros ->; set_solver). by eexists. }
  destruct (String.eqb ag "restock") eqn:Hres.
  { apply String.eqb_eq in Hres. subst ag. specialize (Hunknown ltac:(set_solver)). simpl in Hunknown.
    unfold RestockAgent.execute_action.
    destruct (Action.action action) as [key|]; [|by eexists].
    specialize (Hunknown key eq_refl).
    rewrite !eqb_false_of_ne by (intros ->; set_solver). by eexists. }
  destruct (String.eqb ag "warehouse") eqn:Hwh; [|by eexists].
  apply String.eqb_eq in Hwh. subst ag. specialize (Hunknown ltac:(set_solver)). simpl in Hunknown.
  unfold Warehouse.process_action.
  destruct (Action.type action) as [key|]; [|by eexists].
  specialize (Hunknown key eq_refl).
  rewrite !eqb_false_of_ne by (intros ->; set_solver). by eexists.
Qed.

Lemma execute_plan_from_shape plan :
  forall c acc c' results,
    CoordinatorAgent.execute_plan_from c acc plan = (c', Returned results) ->
    exists new,
      results = acc ++ new
      /\ (length new <= length plan)%nat
      /\ (forall i r, new !! i = Some r -> (S i < length new)%nat ->
                      succeeded r = true)
      /\ ((length new < length plan)%nat ->
          exists r, last new = Some r /\ succeeded r = false).
Proof.
  induction plan as [|a plan IH]; intros c acc c' results; simpl.
  - intros [= <- <-]. exists []. rewrite app_nil_r.
    split; [done|]. split; [simpl; lia|]. split.
    + intros i r' Hi. by rewrite lookup_nil in Hi.
    + simpl. lia.
  - destruct (CoordinatorAgent.execute_action c a) as [c1 [r|e]];
      [|discriminate].
    destruct (succeeded r) eqn:Hr; simpl.
    + intros Hrest. apply IH in Hrest as (new & -> & Hlen & Hok & Hlast).
      exists (r :: new). rewrite <- app_assoc. simpl.
      split; [done|]. split; [lia|]. split.
      * intros [|i] r'; simpl; [by intros [= <-]|].
        intros Hi Hlt. apply (Hok i r' Hi). lia.
      * intros Hlt. destruct Hlast as (r' & Hr' & Hfail); [lia|].
        exists r'. split; [|done]. destruct new; [done|]. exact Hr'.
    + intros [= <- <-]. exists [r].
      split; [done|]. split; [simpl; lia|]. split.
      * intros i r' _ Hlt. simpl in Hlt. lia.
      * intros _. by exists r.
Qed.

(** X18.  The shape of a plan's results.  When [execute_plan] returns, it
    returns at most one result per action and at least one for a non-empty
    plan; every result but the last reports success; and if fewer results
    than actions come back, the last one reports failure. *)
Theorem execute_plan_results_shape (c c' : CoordinatorAgent.t)
    (plan : list Action.t) (results : list pydict) :
  CoordinatorAgent.execute_plan c plan = (c', Returned results) ->
  (length results <= length plan)%nat
  /\ (plan <> [] -> results <> [])
  /\ (forall i r, results !! i = Some r -> (S i < length results)%nat ->
                  succeeded r = true)
  /\ ((length results < length plan)%nat ->
      exists r, last results = Some r /\ succeeded r = false).
Proof.
  unfold CoordinatorAgent.execute_plan. intros Hrun.
  pose proof Hrun as Hshape.
  apply execute_plan_from_shape in Hshape as (new & -> & Hlen & Hok & Hlast).
  simpl. repeat split; try done.
  destruct plan as [|a plan]; [done|]. intros _ ->. simpl in Hrun.
  destruct (CoordinatorAgent.execute_action c a) as [c1 [r|e]];
    [|discriminate].
  destruct (negb (succeeded r)); [discriminate|].
  apply execute_plan_from_shape in Hrun as (new & Hnew & _).
  by destruct new.
Qed.

Lemma execute_plan_from_journal plan :
  Forall (fun a => truthy_str (Action.type a) = true) plan ->
  forall c acc c' results,
    CoordinatorAgent.execute_plan_from c acc plan = (c', Returned results) ->
    exists new,
      results = acc ++ new
      /\ CoordinatorAgent.action_history c'
         = CoordinatorAgent.action_history c ++ journal_of plan new.
Proof.
  induction 1 as [|a plan Ha _ IH]; intros c acc c' results; simpl.
  - intros [= <- <-]. exists []. by rewrite !app_nil_r.
  - rewrite execute_action_cases, Ha. simpl.
    destruct (CoordinatorAgent.route _ a) as [w1 [r|e]]; [|discriminate].
    destruct (negb (succeeded r)).
    + intros [= <- <-]. exists [r]. split; [done|]. simpl.
      unfold journal_of. simpl. by destruct plan.
    + intros Hrest. apply IH in Hrest as (new & -> & ->).
      exists (r :: new). split; [by rewrite <- app_assoc|].
      simpl. by rewrite <- app_assoc.
Qed.

(** X19.  The journal mirrors a plan's run.  For a plan whose actions all
    carry a type, when [execute_plan] returns, the journal has grown by
    exactly the executed actions in order, each as its action entry followed
    by the entry of the result that was returned for it. *)
Theorem execute_plan_journal (c c' : CoordinatorAgent.t)
    (plan : list Action.t) (results : list pydict) :
  Forall (fun a => truthy_str (Action.type a) = true) plan ->
  CoordinatorAgent.execute_plan c plan = (c', Returned results) ->
  CoordinatorAgent.action_history c'
  = CoordinatorAgent.action_history c ++ journal_of plan results
  /\ length (CoordinatorAgent.action_history c')
     = (length (CoordinatorAgent.action_history c) + 2 * length results)%nat.
Proof.
  intros Htyped Hrun. unfold CoordinatorAgent.execute_plan in Hrun.
  pose proof Hrun as Hshape.
  apply execute_plan_from_shape in Hshape as (new' & Hnew' & Hlen & _).
  apply (execute_plan_from_journal _ Htyped) in Hrun as (new & -> & ->).
  simpl in *. subst new'. split; [done|].
  rewrite length_app. f_equal. unfold journal_of.
  clear -Hlen. revert plan Hlen.
  induction new as [|r new IH]; intros [|a plan] Hlen; simpl in *; try lia.
  rewrite IH by lia. lia.
Qed.

(** X20.  [get_action_history] returns the tail of the journal: for a
    positive limit the last [limit] entries (all of them if there are
    fewer), for any other limit the whole journal. *)
Theorem action_history_tail (c : CoordinatorAgent.t) (limit : Z) :
  CoordinatorAgent.get_action_history c limit
  `suffix_of` CoordinatorAgent.action_history c
  /\ (0 < limit ->
      length (CoordinatorAgent.get_action_history c limit)
      = Nat.min (Z.to_nat limit) (length (CoordinatorAgent.action_history c)))
  /\ (limit <= 0 ->
      CoordinatorAgent.get_action_history c limit
      = CoordinatorAgent.action_history c).
Proof.
  unfold CoordinatorAgent.get_action_history. case_decide.
  - split; [apply suffix_drop|]. split; [|lia].
    intros _. rewrite length_drop. lia.
  - split; [done|]. split; [lia|done].
Qed.

(** ** The ledger bounds across every request *)

Lemma add_quantity_ok im p n :
  ledger_ok im -> 0 < n -> ledger_ok (fst (InventoryManager.add_quantity im p n)).
Proof. intros Hok Hn. by apply (ledger_step_ok im (AddQuantity p n)). Qed.

Lemma remove_quantity_ok im p n :
  ledger_ok im -> 0 < n ->
  ledger_ok (fst (InventoryManager.remove_quantity im p n)).
Proof. intros Hok Hn. by apply (ledger_step_ok im (RemoveQuantity p n)). Qed.

Lemma update_quantity_ok im p n :
  ledger_ok im -> ledger_ok (fst (InventoryManager.update_quantity im p n)).
Proof.
  intros Hok. unfold InventoryManager.update_quantity.
  destruct (InventoryManager.get_item im p) as [item|] eqn:Hget; [|done].
  repeat case_decide; simpl; try done.
  intros p' item'. rewrite inventory_get_put.
  case_decide; [|apply Hok]. intros [= <-]. unfold item_ok; simpl. lia.
Qed.

Lemma put_item_ok im p item :
  ledger_ok im -> item_ok item -> ledger_ok (InventoryManager.put im p item).
Proof.
  intros Hok Hitem p' item'. rewrite inventory_get_put.
  case_decide; [by intros [= <-]|apply Hok].
Qed.

(** Case analysis on the next [match] of the goal, keeping its equation. *)
Ltac break_match :=
  match goal with
  | |- context [match ?x with _ => _ end] => destruct x eqn:?
  end.

(** Facts hidden in the guards that were passed. *)
Ltac open_guards :=
  repeat match goal with
  | H : _ && _ = true |- _ => apply andb_true_iff in H as [? ?]
  | H : bool_decide _ = true |- _ => apply bool_decide_eq_true in H
  end.

(** The bounds of every ledger that a ledger operation returned. *)
Ltac ledgers_ok :=
  repeat match goal with
  | H : InventoryManager.add_quantity ?im ?p ?n = (?im', _),
    Hok : ledger_ok ?im |- _ =>
      lazymatch goal with
      | _ : ledger_ok im' |- _ => fail
      | _ => assert (ledger_ok im')
               by (pose proof (add_quantity_ok im p n Hok) as X;
                   rewrite H in X; apply X; lia)
      end
  | H : InventoryManager.remove_quantity ?im ?p ?n = (?im', _),
    Hok : ledger_ok ?im |- _ =>
      lazymatch goal with
      | _ : ledger_ok im' |- _ => fail
      | _ => assert (ledger_ok im')
               by (pose proof (remove_quantity_ok im p n Hok) as X;
                   rewrite H in X; apply X; lia)
      end
  | H : InventoryManager.update_quantity ?im ?p ?n = (?im', _),
    Hok : ledger_ok ?im |- _ =>
      lazymatch goal with
      | _ : ledger_ok im' |- _ => fail
      | _ => assert (ledger_ok im')
               by (pose proof (update_quantity_ok im p n Hok) as X;
                   by rewrite H in X)
      end
  end.

Ltac ledger_branches :=
  repeat (break_match; simpl in *; simplify_eq; try assumption);
  open_guards; ledgers_ok; try assumption.

Lemma inventory_agent_keeps_bounds (w : Warehouse.t) (action : Action.t) :
  warehouse_ledger_ok w -> new_product_in_bounds action ->
  warehouse_ledger_ok (fst (InventoryManagerAgent.execute_action w action)).
Proof.
  unfold warehouse_ledger_ok. intros Hok Hnew.
  unfold InventoryManagerAgent.execute_action,
    InventoryManagerAgent.update_inventory,
    InventoryManagerAgent.add_inventory,
    InventoryManagerAgent.remove_inventory,
    InventoryManagerAgent.add_new_product.
  ledger_branches.
  apply put_item_ok; [assumption|]. unfold item_ok; simpl. by apply Hnew.
Qed.

Lemma agv_agent_keeps_bounds (w : Warehouse.t) (action : Action.t) :
  warehouse_ledger_ok w ->
  warehouse_ledger_ok (fst (AGVPlannerAgent.execute_action w action)).
Proof.
  unfold warehouse_ledger_ok. intros Hok.
  unfold AGVPlannerAgent.execute_action, AGVPlannerAgent.move_agv,
    AGVPlannerAgent.charge_agv, AGVPlannerAgent.load_agv,
    AGVPlannerAgent.load_agv_checked, AGVPlannerAgent.unload_agv,
    AGVPlannerAgent.unload_agv_checked.
  ledger_branches.
Qed.

Lemma execute_restock_keeps_bounds (w : Warehouse.t) p a n :
  warehouse_ledger_ok w ->
  warehouse_ledger_ok (fst (RestockAgent.execute_restock w p a n)).
Proof.
  unfold warehouse_ledger_ok. intros Hok.
  unfold RestockAgent.execute_restock. ledger_branches.
Qed.

Lemma restock_agent_keeps_bounds (w : Warehouse.t) (action : Action.t) :
  warehouse_ledger_ok w ->
  warehouse_ledger_ok (fst (RestockAgent.execute_action w action)).
Proof.
  intros Hok. unfold RestockAgent.execute_action.
  destruct (Action.action action) as [name|]; [|done].
  destruct (String.eqb name "get_restock_needs");
    [by destruct (RestockAgent.get_restock_needs w)|].
  destruct (String.eqb name "plan_restock").
  { destruct (Action.product_id action) as [p|]; [|done].
    destruct (truthy_str (Some p)); [|done].
    pose proof (plan_restock_reads_only w p) as Hsame.
    destruct (RestockAgent.plan_restock_operation w p) as [w' plan].
    simpl in *. by subst w'. }
  destruct (String.eqb name "execute_restock"); [|done].
  destruct (Action.product_id action) as [p|]; [|done].
  destruct (Action.agv_id action) as [a|]; [|done].
  destruct (Action.restock_amount action) as [n|]; [|done].
  destruct (_ && _); [|done].
  pose proof (execute_restock_keeps_bounds w p a n Hok) as Hkept.
  by destruct (RestockAgent.execute_restock w p a n).
Qed.

Lemma warehouse_keeps_bounds (w : Warehouse.t) (action : Action.t) :
  warehouse_ledger_ok w ->
  (Action.type action = Some "pick_item" ->
   0 < default 1 (Action.quantity action)) ->
  warehouse_ledger_ok (fst (Warehouse.process_action w action)).
Proof.
  unfold warehouse_ledger_ok. intros Hok Hpick.
  unfold Warehouse.process_action.
  destruct (Action.type action) as [kind|]; [|done].
  destruct (String.eqb kind "move_agv");
    [unfold Warehouse.process_move_agv; ledger_branches|].
  destruct (String.eqb kind "pick_item") eqn:Hkind.
  { apply String.eqb_eq in Hkind. subst kind. specialize (Hpick eq_refl).
    unfold Warehouse.process_pick_item. ledger_branches. }
  destruct (String.eqb kind "restock_item");
    [unfold Warehouse.process_restock_item; ledger_branches|].
  destruct (String.eqb kind "process_order");
    [unfold Warehouse.process_order; ledger_branches|].
  destruct (String.eqb kind "charge_agv");
    [unfold Warehouse.process_charge_agv; ledger_branches|done].
Qed.

Lemma route_keeps_bounds (w : Warehouse.t) (action : Action.t) :
  warehouse_ledger_ok w -> checked_request action ->
  warehouse_ledger_ok (fst (CoordinatorAgent.route w action)).
Proof.
  intros Hok [Hpick Hnew]. unfold CoordinatorAgent.route.
  destruct (Action.agent action) as [agent|] eqn:Hagent; [|done].
  destruct (String.eqb agent "inventory");
    [by apply inventory_agent_keeps_bounds|].
  destruct (String.eqb agent "agv"); [by apply agv_agent_keeps_bounds|].
  destruct (String.eqb agent "restock");
    [by apply restock_agent_keeps_bounds|].
  destruct (String.eqb agent "warehouse") eqn:Hw; [|done].
  apply String.eqb_eq in Hw. subst agent.
  pose proof (warehouse_keeps_bounds w action Hok (Hpick Hagent)) as Hkept.
  by destruct (Warehouse.process_action w action).
Qed.

Lemma execute_action_keeps_bounds (c : CoordinatorAgent.t) (action : Action.t) :
  warehouse_ledger_ok (CoordinatorAgent.warehouse c) ->
  checked_request action ->
  warehouse_ledger_ok
    (CoordinatorAgent.warehouse (fst (CoordinatorAgent.execute_action c action))).
Proof.
  intros Hok Hreq. rewrite execute_action_cases.
  destruct (negb _); [done|].
  pose proof (route_keeps_bounds _ action Hok Hreq) as Hkept.
  by destruct (CoordinatorAgent.route _ action) as [w' [result|e]].
Qed.

(** X21.  The ledger bounds hold across whole plans.  If every item
    satisfies [0 <= quantity <= max_capacity], then after [execute_plan], on
    whatever plan and however it ends (to its end, short-circuited or by an
    exception), every item still does, provided no action of the plan is a
    [pick_item] sent to the warehouse with a non-positive quantity or an
    [add_new_product] whose initial quantity lies outside its capacity:
    every other path checks the numbers it writes. *)
Theorem plan_keeps_ledger_bounds (c : CoordinatorAgent.t)
    (plan : list Action.t) :
  warehouse_ledger_ok (CoordinatorAgent.warehouse c) ->
  Forall checked_request plan ->
  warehouse_ledger_ok
    (CoordinatorAgent.warehouse (fst (CoordinatorAgent.execute_plan c plan))).
Proof.
  unfold CoordinatorAgent.execute_plan. generalize (@nil pydict) as acc.
  intros acc Hok Hplan. revert c acc Hok.
  induction Hplan as [|a plan Ha _ IH]; intros c acc Hok; simpl; [done|].
  pose proof (execute_action_keeps_bounds c a Hok Ha) as Hstep.
  destruct (CoordinatorAgent.execute_action c a) as [c1 [r|e]]; [|done].
  destruct (negb (succeeded r)); [done|]. by apply IH.
Qed.

(** Without the proviso the bounds can be lost: a [pick_item] of -60 sent to
    the warehouse raises the ledger to 110 of 100 and leaves the agent with
    a line of -60. *)
Example pick_negative_breaks_bounds :
  succeeded (snd (Warehouse.process_action demo_warehouse pick_negative))
  = true
  /\ ledger_quantity
       (fst (Warehouse.process_action demo_warehouse pick_negative)) "P001"
     = Some 110
  /\ cargo (fst (Warehouse.process_action demo_warehouse pick_negative))
       "AGV002"
     = Some {[ "P001" := -60 ]}.
Proof. vm_compute. repeat split. Qed.

(** ** The planner's moves and charges *)

(** X22.  A planner move is validated.  If [move_agv] succeeds, the request
    named a registered idle agent and a location of the warehouse, and the
    agent is now at that location; if it fails, the warehouse is exactly as
    it was. *)
Theorem planner_move_validated (w : Warehouse.t) (action : Action.t) :
  if succeeded (snd (AGVPlannerAgent.move_agv w action))
  then exists a dest agv,
         Action.agv_id action = Some a
         /\ Action.destination action = Some dest
         /\ dest ∈ Warehouse.locations
         /\ AGVManager.get_agv (Warehouse.agv_manager w) a = Some agv
         /\ AGV.status agv = AGVStatus.IDLE
         /\ AGVManager.get_agv
              (Warehouse.agv_manager (fst (AGVPlannerAgent.move_agv w action))) a
            = Some (AGV.move_to agv dest)
         /\ Warehouse.inventory_manager (fst (AGVPlannerAgent.move_agv w action))
            = Warehouse.inventory_manager w
  else fst (AGVPlannerAgent.move_agv w action) = w.
Proof.
  unfold AGVPlannerAgent.move_agv.
  destruct (Action.agv_id action) as [a|]; [|done].
  destruct (Action.destination action) as [dest|]; [|done].
  destruct (_ && _); [|done].
  destruct (AGVManager.get_agv _ a) as [agv|] eqn:Hagv; [|done].
  case_decide as Hidle; [done|].
  case_bool_decide as Hdest; simpl; [|done].
  unfold AGVManager.move_agv. rewrite Hagv. simpl.
  exists a, dest, agv. repeat split; try done.
  by rewrite fleet_get_put, decide_True.
Qed.

(** X23.  A full charge.  For a registered agent whose battery is not
    negative, the planner's [charge_agv] without an [amount] succeeds and
    leaves the agent idle at the charging station with its battery at
    exactly 100 and its cargo untouched, wherever it stood before. *)
Theorem planner_charge_full (w : Warehouse.t) (action : Action.t)
    (a : string) (agv : AGV.t) :
  Action.agv_id action = Some a ->
  a <> "" ->
  Action.amount action = None ->
  AGVManager.get_agv (Warehouse.agv_manager w) a = Some agv ->
  (0 <= AGV.battery_level agv)%Q ->
  succeeded (snd (AGVPlannerAgent.charge_agv w action)) = true
  /\ exists agv',
       AGVManager.get_agv
         (Warehouse.agv_manager (fst (AGVPlannerAgent.charge_agv w action))) a
       = Some agv'
       /\ AGV.location agv' = "charging_station"
       /\ AGV.battery_level agv' = 100%Q
       /\ AGV.status agv' = AGVStatus.IDLE
       /\ AGV.current_load agv' = AGV.current_load agv.
Proof.
  intros Ha Hne Hamount Hagv Hb.
  assert (Hfull : forall x : Q, (0 <= x)%Q -> min100 (x + 100) = 100%Q).
  { intros x Hx. unfold min100. destruct (Qlt_le_dec _ _); [lra|done]. }
  assert (Hmax : (0 <= max0 (AGV.battery_level agv - 5))%Q).
  { unfold max0. destruct (Qlt_le_dec _ _); lra. }
  unfold AGVPlannerAgent.charge_agv. rewrite Ha, Hamount, Hagv. simpl.
  rewrite (proj2 (String.eqb_neq a "")) by done. simpl.
  destruct (String.eqb (AGV.location agv) "charging_station") eqn:Hloc; simpl.
  - apply String.eqb_eq in Hloc.
    unfold AGVManager.charge_agv. rewrite Hagv. simpl.
    rewrite fleet_get_put, decide_True by done. simpl.
    split; [done|]. eexists. split; [reflexivity|]. simpl.
    repeat split; [done|]. by apply Hfull.
  - unfold AGVManager.move_agv. rewrite Hagv. simpl.
    unfold AGVManager.charge_agv. rewrite fleet_get_put, decide_True by done.
    simpl. rewrite !fleet_get_put, !decide_True by done. simpl.
    split; [done|]. eexists. split; [reflexivity|]. simpl.
    repeat split. by apply Hfull.
Qed.

(** ** Orders *)

Lemma add_line_products lines p q :
  fst <$> OrderOps.add_line lines p q
  = if bool_decide (p ∈ fst <$> lines) then fst <$> lines
    else (fst <$> lines) ++ [p].
Proof.
  induction lines as [|[p' n] lines IH]; [done|].
  cbn [OrderOps.add_line]. rewrite fmap_cons. cbn [fst].
  destruct (String.eqb_spec p' p) as [->|Hne].
  - rewrite fmap_cons. cbn [fst]. rewrite bool_decide_eq_true_2; [done|]. left.
  - rewrite fmap_cons, IH. cbn [fst]. case_bool_decide as Hin.
    + rewrite bool_decide_eq_true_2; [done|]. by right.
    + rewrite bool_decide_eq_false_2; [done|].
      intros [?|?]%elem_of_cons; [by subst|done].
Qed.

Lemma add_line_total lines p q :
  foldr (fun line acc => snd line + acc) 0 (OrderOps.add_line lines p q)
  = foldr (fun line acc => snd line + acc) 0 lines + q.
Proof.
  induction lines as [|[p' n] lines IH]; simpl; [lia|].
  destruct (String.eqb p' p); simpl; lia.
Qed.

Lemma add_line_quantity lines p q p' :
  foldr (fun line acc =>
           if String.eqb (fst line) p' then snd line + acc else acc)
        0 (OrderOps.add_line lines p q)
  = foldr (fun line acc =>
             if String.eqb (fst line) p' then snd line + acc else acc)
          0 lines
    + (if String.eqb p p' then q else 0).
Proof.
  induction lines as [|[p0 n] lines IH]; simpl.
  - destruct (String.eqb p p'); lia.
  - destruct (String.eqb_spec p0 p) as [->|Hne]; simpl.
    + destruct (String.eqb p p'); lia.
    + rewrite IH. destruct (String.eqb p0 p'); lia.
Qed.

(** X24.  [Order.add_item] merges by product.  The order's total rises by
    the quantity, what it asks of the product rises by the quantity and of
    no other product changes; a product already on the order gets no second
    line, a new product gets a line at the end; so an order whose products
    are distinct keeps them distinct. *)
Theorem order_add_item_merges (order : Order.t) (p : string) (q : Z) :
  OrderOps.get_total_items (OrderOps.add_item order p q)
  = OrderOps.get_total_items order + q
  /\ ordered_quantity (OrderOps.add_item order p q) p
     = ordered_quantity order p + q
  /\ (forall p', p' <> p ->
        ordered_quantity (OrderOps.add_item order p q) p'
        = ordered_quantity order p')
  /\ order_products (OrderOps.add_item order p q)
     = (if bool_decide (p ∈ order_products order) then order_products order
        else order_products order ++ [p])
  /\ (NoDup (order_products order) ->
      NoDup (order_products (OrderOps.add_item order p q))).
Proof.
  unfold OrderOps.get_total_items, ordered_quantity, order_products,
    OrderOps.add_item; simpl.
  split; [apply add_line_total|].
  split; [by rewrite add_line_quantity, String.eqb_refl|].
  split.
  { intros p' Hne. rewrite add_line_quantity.
    rewrite (proj2 (String.eqb_neq p p')) by done. lia. }
  split; [apply add_line_products|].
  intros Hnd. rewrite add_line_products. case_bool_decide as Hin; [done|].
  apply NoDup_app. split; [done|]. split; [|apply NoDup_singleton].
  intros x Hx ->%list_elem_of_singleton. done.
Qed.

Lemma remove_line_none lines p :
  OrderOps.remove_line lines p = None <-> p ∉ fst <$> lines.
Proof.
  induction lines as [|[p' n] lines IH].
  - split; [intros _; apply not_elem_of_nil|done].
  - cbn [OrderOps.remove_line]. rewrite fmap_cons. cbn [fst].
    destruct (String.eqb_spec p' p) as [->|Hne].
    + split; [done|]. intros []. left.
    + rewrite fmap_None, IH, not_elem_of_cons.
      split; [intros ?; split; [congruence|done]|by intros [_ ?]].
Qed.

Lemma filter_other_product (lines : list (string * Z)) p :
  p ∉ fst <$> lines -> filter (fun line => fst line <> p) lines = lines.
Proof.
  induction lines as [|[p' n] lines IH]; [done|].
  rewrite fmap_cons. cbn [fst]. intros [Hne Hrest]%not_elem_of_cons.
  rewrite filter_cons_True by (simpl; congruence). by rewrite IH.
Qed.

Lemma remove_line_some lines p lines' :
  NoDup (fst <$> lines) ->
  OrderOps.remove_line lines p = Some lines' ->
  lines' = filter (fun line => fst line <> p) lines
  /\ p ∉ fst <$> lines'.
Proof.
  revert lines'. induction lines as [|[p' n] lines IH];
    intros lines' Hnd; [done|].
  rewrite fmap_cons in Hnd. cbn [fst] in Hnd.
  apply NoDup_cons in Hnd as [Hfresh Hnd].
  cbn [OrderOps.remove_line].
  destruct (String.eqb_spec p' p) as [->|Hne].
  - intros [= <-]. rewrite filter_cons_False by (simpl; tauto).
    by rewrite filter_other_product.
  - destruct (OrderOps.remove_line lines p) as [rest|] eqn:Hrest;
      [|discriminate].
    intros [= <-]. destruct (IH rest Hnd eq_refl) as [-> Hgone].
    rewrite filter_cons_True by done. split; [done|].
    rewrite fmap_cons. cbn [fst]. apply not_elem_of_cons. split; [done|].
    exact Hgone.
Qed.

(** X25.  [Order.remove_item] answers whether the product was on the order.
    It returns [False] exactly when the product is on no line, and then the
    order is unchanged; on an order whose products are distinct a removal
    drops the product's line and keeps every other line in place. *)
Theorem order_remove_item_drops (order : Order.t) (p : string) :
  (snd (OrderOps.remove_item order p) = false <-> p ∉ order_products order)
  /\ (snd (OrderOps.remove_item order p) = false ->
      fst (OrderOps.remove_item order p) = order)
  /\ (NoDup (order_products order) ->
      snd (OrderOps.remove_item order p) = true ->
      Order.items (fst (OrderOps.remove_item order p))
      = filter (fun line => fst line <> p) (Order.items order)
      /\ (p ∉ order_products (fst (OrderOps.remove_item order p)))
      /\ ordered_quantity (fst (OrderOps.remove_item order p)) p = 0).
Proof.
  unfold OrderOps.remove_item, order_products.
  pose proof (remove_line_none (Order.items order) p) as Hnone.
  destruct (OrderOps.remove_line (Order.items order) p) as [lines|] eqn:Hrm;
    simpl.
  - split; [split; [done|]; intros Hout; by apply Hnone in Hout|].
    split; [done|]. intros Hnd _.
    destruct (remove_line_some _ _ _ Hnd Hrm) as [-> Hgone].
    split; [done|]. split; [done|]. unfold ordered_quantity; simpl.
    revert Hgone. generalize (filter (fun line => fst line <> p)
                                     (Order.items order)).
    intros l. induction l as [|[p' n] l IH]; [done|].
    rewrite fmap_cons. cbn [fst]. intros [Hne Hl]%not_elem_of_cons. simpl.
    rewrite (proj2 (String.eqb_neq p' p)) by done. by apply IH.
  - split; [split; [intros _; by apply Hnone|done]|]. by split.
Qed.



(** X27.  What [process_order] changes.  For a request that names an order
    and a status: if the status is one of the seven known ones and the order
    exists, the order takes that status whatever its status was, every other
    order is untouched, [orders_processed] rises by one exactly when the new
    status is [completed], and the ledger and the fleet are untouched; in
    every other case the call reports failure and the warehouse is exactly
    as it was. *)
Theorem process_order_effect (w : Warehouse.t) (action : Action.t)
    (oid new_status : string) :
  Action.order_id action = Some oid -> oid <> "" ->
  Action.status action = Some new_status -> new_status <> "" ->
  match OrderStatus.of_string new_status,
        OrderManager.get_order (Warehouse.order_manager w) oid with
  | Some s, Some order =>
      succeeded (snd (Warehouse.process_order w action)) = true
      /\ OrderManager.get_order
           (Warehouse.order_manager (fst (Warehouse.process_order w action)))
           oid
         = Some (Order.update_status order s)
      /\ (forall oid', oid' <> oid ->
            OrderManager.get_order
              (Warehouse.order_manager (fst (Warehouse.process_order w action)))
              oid'
            = OrderManager.get_order (Warehouse.order_manager w) oid')
      /\ Warehouse.orders_processed
           (Warehouse.stats (fst (Warehouse.process_order w action)))
         = Warehouse.orders_processed (Warehouse.stats w)
           + (if decide (s = OrderStatus.COMPLETED) then 1 else 0)
      /\ Warehouse.inventory_manager (fst (Warehouse.process_order w action))
         = Warehouse.inventory_manager w
      /\ Warehouse.agv_manager (fst (Warehouse.process_order w action))
         = Warehouse.agv_manager w
  | _, _ =>
      succeeded (snd (Warehouse.process_order w action)) = false
      /\ fst (Warehouse.process_order w action) = w
  end.
Proof.
  intros Hoid Hne Hst Hne'. unfold Warehouse.process_order.
  rewrite Hoid, Hst. simpl.
  rewrite (proj2 (String.eqb_neq oid "")), (proj2 (String.eqb_neq new_status ""))
    by done. simpl.
  destruct (OrderStatus.of_string new_status) as [s|]; [|done].
  unfold OrderManager.update_order_status.
  destruct (OrderManager.get_order _ oid) as [order|] eqn:Horder; simpl.
  - unfold OrderManager.get_order; simpl.
    repeat split; try done.
    + apply lookup_insert_eq.
    + intros oid' Hother. by apply lookup_insert_ne.
    + case_decide; simpl; lia.
  - split; [done|]. by destruct w.
Qed.

(** ** Iteration order of the ledger *)

Lemma omap_ext_in {A B} (f g : A -> option B) (l : list A) :
  (forall x, x ∈ l -> f x = g x) -> omap f l = omap g l.
Proof.
  induction l as [|x l IH]; intros Hfg; [done|]. csimpl.
  rewrite (Hfg x) by left. rewrite IH; [done|].
  intros y Hy. apply Hfg. by right.
Qed.

Lemma omap_total_length {A B} (f : A -> option B) (l : list A) :
  (forall x, x ∈ l -> is_Some (f x)) -> length (omap f l) = length l.
Proof.
  induction l as [|x l IH]; intros Hf; [done|]. csimpl.
  destruct (Hf x ltac:(left)) as [y ->]. simpl. f_equal.
  apply IH. intros z Hz. apply Hf. by right.
Qed.

(** X28.  [add_item] and the iteration order.  On a ledger whose key order
    lists its product ids once each, [add_item] keeps it so and the new item
    is the one found under its id; an item with a new id is appended to
    [get_all_items], after every item that was there; an item with a known
    id takes the place of the old one, the order of ids and the number of
    items unchanged. *)
Theorem add_item_iteration_order (im : InventoryManager.t)
    (item : InventoryItem.t) :
  keys_match (InventoryManager.item_keys im) (InventoryManager.items im) ->
  keys_match
    (InventoryManager.item_keys
       (fst (InventoryManager.add_item im (ItemObject item))))
    (InventoryManager.items
       (fst (InventoryManager.add_item im (ItemObject item))))
  /\ InventoryManager.get_item
       (fst (InventoryManager.add_item im (ItemObject item)))
       (InventoryItem.product_id item)
     = Some item
  /\ (InventoryManager.get_item im (InventoryItem.product_id item) = None ->
      InventoryManager.get_all_items
        (fst (InventoryManager.add_item im (ItemObject item)))
      = InventoryManager.get_all_items im ++ [item])
  /\ (is_Some (InventoryManager.get_item im (InventoryItem.product_id item)) ->
      InventoryManager.item_keys
        (fst (InventoryManager.add_item im (ItemObject item)))
      = InventoryManager.item_keys im
      /\ length (InventoryManager.get_all_items
                   (fst (InventoryManager.add_item im (ItemObject item))))
         = length (InventoryManager.get_all_items im)).
Proof.
  destruct im as [items keys]. set (k := InventoryItem.product_id item).
  unfold InventoryManager.add_item, InventoryManager.put,
    InventoryManager.get_item, InventoryManager.get_all_items, keys_set;
    simpl. fold k. intros [Hnd Hkeys].
  split; [|split; [apply lookup_insert_eq|split]].
  - case_bool_decide as Hin.
    + split; [done|]. intros k'. rewrite Hkeys, lookup_insert.
      case_decide; [subst k'|done]. split; [eauto|done].
    + assert (k ∉ keys) by (by rewrite Hkeys).
      split.
      * apply NoDup_app. split; [done|]. split; [|apply NoDup_singleton].
        intros x Hx ->%list_elem_of_singleton. done.
      * intros k'. rewrite elem_of_app, list_elem_of_singleton, Hkeys,
          lookup_insert.
        case_decide; [subst k'|]; split; eauto; intros [?|?]; eauto; done.
  - intros Hnone. rewrite bool_decide_eq_false_2 by (rewrite Hnone; by intros [? ?]).
    assert (k ∉ keys) by (rewrite Hkeys, Hnone; by intros [? ?]).
    rewrite omap_app. simpl. rewrite lookup_insert_eq. simpl. f_equal.
    apply omap_ext_in. intros k' Hk'. apply lookup_insert_ne. by intros ->.
  - intros Hsome. rewrite bool_decide_eq_true_2 by done.
    split; [done|].
    rewrite !omap_total_length; [done| |].
    + intros k' Hk'. by apply Hkeys.
    + intros k' Hk'. rewrite lookup_insert. case_decide; [eauto|by apply Hkeys].
Qed.

(** ** The order book *)

Lemma omap_length_ext {A B C} (f : A -> option B) (g : A -> option C)
    (l : list A) :
  (forall x, x ∈ l -> is_Some (f x) <-> is_Some (g x)) ->
  length (omap f l) = length (omap g l).
Proof.
  induction l as [|x l IH]; intros Hfg; [done|]. csimpl.
  pose proof (Hfg x ltac:(left)) as Hx.
  assert (IH' : length (omap f l) = length (omap g l)).
  { apply IH. intros y Hy. apply Hfg. by right. }
  destruct (f x) as [b|], (g x) as [c|]; simpl.
  - by rewrite IH'.
  - destruct (proj1 Hx ltac:(by eexists)) as [? [=]].
  - destruct (proj2 Hx ltac:(by eexists)) as [? [=]].
  - done.
Qed.


(** X30.  Status changes and the status listings.  After
    [update_order_status] of an order the book holds under a listed id, the
    order appears in the listing of its new status, the book has as many
    orders as before, and no listing of another status gains an order.  The
    current status is never consulted: [cancel_order] and [complete_order]
    apply to an order in any status. *)
Theorem order_status_listing (om : OrderManager.t) (order_id : string)
    (s : OrderStatus.t) (order : Order.t) :
  order_id ∈ OrderManager.order_keys om ->
  OrderManager.get_order om order_id = Some order ->
  snd (OrderManager.update_order_status om order_id s) = true
  /\ Order.update_status order s
     ∈ OrderManagerOps.get_orders_by_status
         (fst (OrderManager.update_order_status om order_id s)) s
  /\ length (OrderManagerOps.get_all_orders
               (fst (OrderManager.update_order_status om order_id s)))
     = length (OrderManagerOps.get_all_orders om)
  /\ (forall s' o, s' <> s ->
        o ∈ OrderManagerOps.get_orders_by_status
              (fst (OrderManager.update_order_status om order_id s)) s' ->
        o ∈ OrderManagerOps.get_orders_by_status om s')
  /\ fst (OrderManagerOps.cancel_order om order_id)
     = fst (OrderManager.update_order_status om order_id OrderStatus.CANCELLED)
  /\ OrderManager.get_order
       (fst (OrderManagerOps.complete_order
               (fst (OrderManagerOps.cancel_order om order_id)) order_id))
       order_id
     = Some (Order.update_status order OrderStatus.COMPLETED).
Proof.
  intros Hkey Horder.
  unfold OrderManagerOps.cancel_order, OrderManagerOps.complete_order,
    OrderManager.update_order_status.
  rewrite Horder. simpl.
  unfold OrderManagerOps.get_orders_by_status, OrderManagerOps.get_all_orders;
    simpl.
  split; [done|]. split.
  { apply list_elem_of_filter. split; [done|].
    apply list_elem_of_omap. exists order_id. split; [done|].
    apply lookup_insert_eq. }
  split.
  { apply omap_length_ext. intros k _. unfold OrderManager.get_order in Horder.
    destruct (decide (k = order_id)) as [->|Hne].
    - rewrite lookup_insert_eq, Horder. split; by eexists.
    - by rewrite lookup_insert_ne. }
  split.
  { intros s' o Hother [Hstatus Hin]%list_elem_of_filter.
    apply list_elem_of_filter. split; [done|].
    apply list_elem_of_omap in Hin as (k & Hk & Hlookup).
    apply list_elem_of_omap. exists k. split; [done|].
    destruct (decide (k = order_id)) as [->|Hne].
    - rewrite lookup_insert_eq in Hlookup. by simplify_eq.
    - by rewrite lookup_insert_ne in Hlookup. }
  split; [done|].
  unfold OrderManager.get_order; simpl. rewrite lookup_insert_eq. simpl.
  rewrite lookup_insert_eq. by destruct order.
Qed.


(** ** Concrete instances of the further properties *)


Lemma execute_restock_full_cycle_witness :
  InventoryManager.get_item (Warehouse.inventory_manager demo_warehouse) "P001"
  = Some smartphone
  /\ AGVManager.get_agv (Warehouse.agv_manager demo_warehouse) "AGV003"
     = Some agv003
  /\ ledger_quantity
       (fst (RestockAgent.execute_restock demo_warehouse "P001" "AGV003" 50))
       "P001"
     = Some (InventoryItem.quantity smartphone + 50).
Proof.
  assert (Hitem : InventoryManager.get_item
                    (Warehouse.inventory_manager demo_warehouse) "P001"
                  = Some smartphone) by (vm_compute; reflexivity).
  assert (Hagv : AGVManager.get_agv (Warehouse.agv_manager demo_warehouse)
                   "AGV003" = Some agv003) by (vm_compute; reflexivity).
  split; [exact Hitem|]. split; [exact Hagv|].
  refine (proj1 (proj2 (execute_restock_full_cycle demo_warehouse "P001"
                          "AGV003" 50 smartphone agv003 Hitem Hagv _ _ _ _ _))).
  - reflexivity.
  - vm_compute; reflexivity.
  - lia.
  - by vm_compute.
  - simpl; lia.
Defined.

Lemma plan_restock_selects_witness :
  InventoryManager.get_item (Warehouse.inventory_manager low_stock_warehouse)
    "P103" = Some case
  /\ (succeeded (snd (RestockAgent.plan_restock_operation low_stock_warehouse
                        "P103")) = true <->
      AGVManager.get_available_agvs (Warehouse.agv_manager low_stock_warehouse)
      <> []).
Proof.
  assert (Hitem : InventoryManager.get_item
                    (Warehouse.inventory_manager low_stock_warehouse) "P103"
                  = Some case) by (vm_compute; reflexivity).
  split; [exact Hitem|].
  refine (proj1 (plan_restock_selects low_stock_warehouse "P103" case Hitem _)).
  simpl; lia.
Defined.


(** The plan does not look at the agent's capacity: on the seed fleet the
    first available agent carries 50, less than the 97 planned, and the
    execution of the plan stops at the load. *)
Example plan_ignores_capacity :
  dict_get "agv_id"
    (snd (RestockAgent.plan_restock_operation
            (warehouse_of [case] demo_agvs) "P103"))
  = Some (VStr "AGV001")
  /\ dict_get "restock_amount"
       (snd (RestockAgent.plan_restock_operation
               (warehouse_of [case] demo_agvs) "P103"))
     = Some (VInt 97)
  /\ succeeded
       (snd (RestockAgent.execute_restock (warehouse_of [case] demo_agvs)
               "P103" "AGV001" 97))
     = false.
Proof. vm_compute. repeat split. Qed.

Lemma execute_restock_fast_fail_witness :
  InventoryManager.get_item (Warehouse.inventory_manager demo_warehouse) "P404"
  = None
  /\ fst (RestockAgent.execute_restock demo_warehouse "P404" "AGV003" 10)
     = demo_warehouse.
Proof.
  assert (H : InventoryManager.get_item
                (Warehouse.inventory_manager demo_warehouse) "P404" = None)
    by (vm_compute; reflexivity).
  split; [exact H|].
  exact (proj1 (execute_restock_fast_fail demo_warehouse "P404" "AGV003" 10
                  (or_introl H))).
Defined.

Lemma execute_restock_refused_load_witness :
  (AGV.max_capacity agv001
   < inject_Z (sum_values (AGV.current_load agv001) + 60))%Q
  /\ AGVManager.get_agv
       (Warehouse.agv_manager
          (fst (RestockAgent.execute_restock demo_warehouse "P001" "AGV001" 60)))
       "AGV001"
     = Some (AGV.move_to agv001 "receiving").
Proof.
  assert (Hcap : (AGV.max_capacity agv001
                  < inject_Z (sum_values (AGV.current_load agv001) + 60))%Q)
    by (vm_compute; reflexivity).
  split; [exact Hcap|].
  refine (proj1 (proj2 (proj2
    (execute_restock_refused_load demo_warehouse "P001" "AGV001" 60
       smartphone agv001 _ _ _ Hcap)))).
  - vm_compute; reflexivity.
  - vm_compute; reflexivity.
  - reflexivity.
Defined.



Lemma unknown_request_rejected_witness :
  Action.agent unknown_agent_request = Some "auditor"
  /\ exists result,
       CoordinatorAgent.route demo_warehouse unknown_agent_request
       = (demo_warehouse, Returned result)
       /\ succeeded result = false.
Proof.
  split; [reflexivity|].
  apply unknown_request_rejected.
  intros agent [= <-] Hknown. exfalso. revert Hknown. unfold known_agents.
  rewrite !elem_of_cons. intros [H|[H|[H|[H|H]]]];
    try discriminate H. by apply elem_of_nil in H.
Defined.

Lemma execute_plan_results_shape_witness :
  CoordinatorAgent.execute_plan demo_coordinator short_circuit_plan
  = (fst (CoordinatorAgent.execute_plan demo_coordinator short_circuit_plan),
     Returned
       (returned_report
          (snd (CoordinatorAgent.execute_plan demo_coordinator
                  short_circuit_plan))))
  /\ length (returned_report
               (snd (CoordinatorAgent.execute_plan demo_coordinator
                       short_circuit_plan))) = 2%nat
  /\ (length (returned_report
                (snd (CoordinatorAgent.execute_plan demo_coordinator
                        short_circuit_plan)))
      <= length short_circuit_plan)%nat.
Proof.
  assert (H : CoordinatorAgent.execute_plan demo_coordinator short_circuit_plan
              = (fst (CoordinatorAgent.execute_plan demo_coordinator
                        short_circuit_plan),
                 Returned
                   (returned_report
                      (snd (CoordinatorAgent.execute_plan demo_coordinator
                              short_circuit_plan)))))
    by (vm_compute; reflexivity).
  split; [exact H|]. split; [vm_compute; reflexivity|].
  exact (proj1 (execute_plan_results_shape _ _ _ _ H)).
Defined.

Lemma short_circuit_plan_typed :
  Forall (fun a => truthy_str (Action.type a) = true) short_circuit_plan.
Proof. repeat constructor. Defined.

Lemma execute_plan_journal_witness :
  Forall (fun a => truthy_str (Action.type a) = true) short_circuit_plan
  /\ length (CoordinatorAgent.action_history
               (fst (CoordinatorAgent.execute_plan demo_coordinator
                       short_circuit_plan)))
     = (length (CoordinatorAgent.action_history demo_coordinator)
        + 2 * length (returned_report
                        (snd (CoordinatorAgent.execute_plan demo_coordinator
                                short_circuit_plan))))%nat.
Proof.
  split; [exact short_circuit_plan_typed|].
  refine (proj2 (execute_plan_journal demo_coordinator _ short_circuit_plan _
                   short_circuit_plan_typed _)).
  vm_compute; reflexivity.
Defined.

Lemma short_circuit_plan_checked : Forall checked_request short_circuit_plan.
Proof.
  unfold short_circuit_plan.
  repeat (constructor; [split; [intros [=]|intros data [=]]|]).
  constructor.
Defined.

Lemma plan_keeps_ledger_bounds_witness :
  warehouse_ledger_ok (CoordinatorAgent.warehouse demo_coordinator)
  /\ Forall checked_request short_circuit_plan
  /\ warehouse_ledger_ok
       (CoordinatorAgent.warehouse
          (fst (CoordinatorAgent.execute_plan demo_coordinator
                  short_circuit_plan))).
Proof.
  split; [exact demo_ledger_ok|]. split; [exact short_circuit_plan_checked|].
  exact (plan_keeps_ledger_bounds demo_coordinator short_circuit_plan
           demo_ledger_ok short_circuit_plan_checked).
Defined.

Lemma planner_charge_full_witness :
  AGVManager.get_agv (Warehouse.agv_manager demo_warehouse) "AGV002"
  = Some agv002
  /\ succeeded (snd (AGVPlannerAgent.charge_agv demo_warehouse
                       (agv_request "charge_agv" "AGV002" None None None)))
     = true.
Proof.
  assert (Hagv : AGVManager.get_agv (Warehouse.agv_manager demo_warehouse)
                   "AGV002" = Some agv002) by (vm_compute; reflexivity).
  split; [exact Hagv|].
  refine (proj1 (planner_charge_full demo_warehouse
                   (agv_request "charge_agv" "AGV002" None None None)
                   "AGV002" agv002 _ _ _ Hagv _)).
  - reflexivity.
  - discriminate.
  - reflexivity.
  - by vm_compute.
Defined.




Lemma order_status_listing_witness :
  ("O-1" ∈ OrderManager.order_keys order_book)
  /\ OrderManager.get_order order_book "O-1" = Some sample_order
  /\ Order.update_status sample_order OrderStatus.COMPLETED
     ∈ OrderManagerOps.get_orders_by_status
         (fst (OrderManager.update_order_status order_book "O-1"
                 OrderStatus.COMPLETED))
         OrderStatus.COMPLETED.
Proof.
  assert (Hkey : "O-1" ∈ OrderManager.order_keys order_book)
    by (simpl; apply list_elem_of_singleton; reflexivity).
  assert (Horder : OrderManager.get_order order_book "O-1" = Some sample_order)
    by (vm_compute; reflexivity).
  split; [exact Hkey|]. split; [exact Horder|].
  exact (proj1 (proj2 (order_status_listing order_book "O-1"
                         OrderStatus.COMPLETED sample_order Hkey Horder))).
Defined.

Lemma process_order_effect_witness :
  Action.order_id complete_order_request = Some "O-1"
  /\ Warehouse.orders_processed
       (Warehouse.stats
          (fst (Warehouse.process_order order_warehouse complete_order_request)))
     = Warehouse.orders_processed (Warehouse.stats order_warehouse) + 1.
Proof.
  split; [reflexivity|].
  pose proof (process_order_effect order_warehouse complete_order_request
                "O-1" "completed" eq_refl ltac:(discriminate) eq_refl
                ltac:(discriminate)) as H.
  exact (proj1 (proj2 (proj2 (proj2 H)))).
Defined.

Lemma sample_order_products_distinct : NoDup (order_products sample_order).
Proof.
  unfold order_products. simpl. repeat constructor;
    rewrite ?not_elem_of_cons; repeat split; try discriminate;
    apply not_elem_of_nil.
Defined.

Lemma order_add_item_merges_witness :
  NoDup (order_products sample_order)
  /\ NoDup (order_products (OrderOps.add_item sample_order "P001" 4))
  /\ ordered_quantity (OrderOps.add_item sample_order "P001" 4) "P001" = 6.
Proof.
  split; [exact sample_order_products_distinct|].
  split.
  - exact (proj2 (proj2 (proj2 (proj2
             (order_add_item_merges sample_order "P001" 4))))
             sample_order_products_distinct).
  - exact (proj1 (proj2 (order_add_item_merges sample_order "P001" 4))).
Defined.

Lemma order_remove_item_drops_witness :
  NoDup (order_products sample_order)
  /\ snd (OrderOps.remove_item sample_order "P004") = true
  /\ ordered_quantity (fst (OrderOps.remove_item sample_order "P004")) "P004"
     = 0.
Proof.
  assert (H : snd (OrderOps.remove_item sample_order "P004") = true)
    by (vm_compute; reflexivity).
  split; [exact sample_order_products_distinct|]. split; [exact H|].
  exact (proj2 (proj2 (proj2 (proj2 (order_remove_item_drops sample_order "P004"))
                         sample_order_products_distinct H))).
Defined.

Lemma single_item_ledger_keys :
  keys_match (InventoryManager.item_keys single_item_ledger)
             (InventoryManager.items single_item_ledger).
Proof.
  split; [apply NoDup_singleton|].
  intros k. simpl. rewrite list_elem_of_singleton.
  destruct (decide (k = "P001")) as [->|Hne].
  - rewrite lookup_singleton_eq. split; [by eexists|done].
  - rewrite lookup_singleton_ne by done. split; [done|].
    intros [? [=]].
Defined.

Lemma add_item_iteration_order_witness :
  keys_match (InventoryManager.item_keys single_item_ledger)
             (InventoryManager.items single_item_ledger)
  /\ InventoryManager.get_item single_item_ledger
       (InventoryItem.product_id cable) = None
  /\ InventoryManager.get_all_items
       (fst (InventoryManager.add_item single_item_ledger (ItemObject cable)))
     = InventoryManager.get_all_items single_item_ledger ++ [cable].
Proof.
  assert (Hnew : InventoryManager.get_item single_item_ledger
                   (InventoryItem.product_id cable) = None)
    by (vm_compute; reflexivity).
  split; [exact single_item_ledger_keys|]. split; [exact Hnew|].
  exact (proj1 (proj2 (proj2
           (add_item_iteration_order single_item_ledger cable
              single_item_ledger_keys))) Hnew).
Defined.
